(** * ApiController (SynchronousGrab/Qt): synchronous single image acquisition

    A shallow embedding of [ApiController.cpp] and the verification of its
    specification.  The controller is glue code over the Vimba SDK, so the
    SDK is a parameter of the development: a record of transition functions
    over an abstract world, one per SDK entry point the controller calls.
    Every call the controller makes is logged as an [Event], which is how
    statements such as "Close is called exactly once" are phrased.

    The only loop of the file, the polling of [IsCommandDone], has no bound
    in the source; it is embedded with a fuel argument, and running out of
    fuel ([None]) stands for "has not returned yet". *)

From Stdlib Require Import ZArith String List Bool Lia.
From ExtLib Require Import Structures.Monad.
Import ListNotations.
Import MonadNotation.
Local Open Scope Z_scope.
Local Open Scope monad_scope.

Set Implicit Arguments.

(** ** SDK types *)

(** [VmbErrorType] is an enumeration of the SDK; the controller only ever
    compares a status with [VmbErrorSuccess]. *)
Definition VmbErrorType := Z.
Definition VmbInt64_t := Z.
Definition VmbAccessModeType := Z.

(** Shared pointers of the SDK are handles; [nullptr] is the value of a
    default-constructed one. *)
Definition CameraPtr := nat.
Definition FeaturePtr := nat.
Definition FramePtr := nat.
Definition CameraObserverPtr := nat.
Definition CameraPtrVector := list CameraPtr.
Definition nullptr : nat := 0%nat.

(** The enumerators the controller names.  Their values live in the SDK
    headers, which are not part of the sources, so they are parameters. *)
Class VmbConstants : Type := {
  VmbErrorSuccess : VmbErrorType;
  VmbAccessModeFull : VmbAccessModeType;
  VmbPixelFormatMono8 : VmbInt64_t;
  VmbPixelFormatRgb8 : VmbInt64_t
}.

(** The SDK entry points used by the controller.  An argument passed by
    reference is given to the SDK with its current value and comes back
    with the value the SDK left in it, whatever the status. *)
Record VimbaSDK (W : Type) : Type := {
  (* VimbaSystem *)
  sys_Startup : W -> VmbErrorType * W;
  sys_Shutdown : W -> VmbErrorType * W;
  sys_RegisterCameraListObserver : CameraObserverPtr -> W -> VmbErrorType * W;
  sys_GetCameras : CameraPtrVector -> W -> VmbErrorType * CameraPtrVector * W;
  sys_OpenCameraByID :
    string -> VmbAccessModeType -> CameraPtr -> W -> VmbErrorType * CameraPtr * W;
  (* Camera *)
  cam_GetFeatureByName :
    CameraPtr -> string -> FeaturePtr -> W -> VmbErrorType * FeaturePtr * W;
  cam_AcquireSingleImage :
    CameraPtr -> FramePtr -> Z -> W -> VmbErrorType * FramePtr * W;
  cam_Close : CameraPtr -> W -> VmbErrorType * W;
  (* Feature *)
  feat_RunCommand : FeaturePtr -> W -> VmbErrorType * W;
  feat_IsCommandDone : FeaturePtr -> bool -> W -> VmbErrorType * bool * W;
  feat_GetValue : FeaturePtr -> VmbInt64_t -> W -> VmbErrorType * VmbInt64_t * W;
  feat_SetValue : FeaturePtr -> VmbInt64_t -> W -> VmbErrorType * W;
  (* new CameraObserver() *)
  new_CameraObserver : W -> CameraObserverPtr * W
}.

(** One SDK call, with its arguments and what it returned. *)
Inductive Event : Type :=
| EvStartup (res : VmbErrorType)
| EvShutdown (res : VmbErrorType)
| EvNewCameraObserver (obs : CameraObserverPtr)
| EvRegisterCameraListObserver (obs : CameraObserverPtr) (res : VmbErrorType)
| EvGetCameras (res : VmbErrorType) (cameras : CameraPtrVector)
| EvOpenCameraByID (id : string) (mode : VmbAccessModeType)
                   (res : VmbErrorType) (cam : CameraPtr)
| EvGetFeatureByName (cam : CameraPtr) (name : string)
                     (res : VmbErrorType) (feat : FeaturePtr)
| EvRunCommand (feat : FeaturePtr) (res : VmbErrorType)
| EvIsCommandDone (feat : FeaturePtr) (res : VmbErrorType) (done : bool)
| EvGetValue (feat : FeaturePtr) (res : VmbErrorType) (value : VmbInt64_t)
| EvSetValue (feat : FeaturePtr) (value : VmbInt64_t) (res : VmbErrorType)
| EvAcquireSingleImage (cam : CameraPtr) (timeout : Z)
                       (res : VmbErrorType) (frame : FramePtr)
| EvClose (cam : CameraPtr) (res : VmbErrorType).

Definition is_Close (e : Event) : bool :=
  match e with EvClose _ _ => true | _ => false end.

Definition is_Open (e : Event) : bool :=
  match e with EvOpenCameraByID _ _ _ _ => true | _ => false end.

Definition is_Startup (e : Event) : bool :=
  match e with EvStartup _ => true | _ => false end.

Definition is_Register (e : Event) : bool :=
  match e with EvRegisterCameraListObserver _ _ => true | _ => false end.

(** Feature calls: get, set, run-command, is-done (and the look-up of a
    feature by name). *)
Definition is_feature_call (e : Event) : bool :=
  match e with
  | EvGetFeatureByName _ _ _ _ | EvRunCommand _ _ | EvIsCommandDone _ _ _
  | EvGetValue _ _ _ | EvSetValue _ _ _ => true
  | _ => false
  end.

Definition is_capture (e : Event) : bool :=
  match e with EvAcquireSingleImage _ _ _ _ => true | _ => false end.

(** The status a call returned ([new] returns none). *)
Definition status_of (e : Event) : option VmbErrorType :=
  match e with
  | EvStartup r | EvShutdown r | EvRegisterCameraListObserver _ r
  | EvGetCameras r _ | EvOpenCameraByID _ _ r _ | EvGetFeatureByName _ _ r _
  | EvRunCommand _ r | EvIsCommandDone _ r _ | EvGetValue _ r _
  | EvSetValue _ _ r | EvAcquireSingleImage _ _ r _ | EvClose _ r => Some r
  | EvNewCameraObserver _ => None
  end.

Definition count (p : Event -> bool) (evs : list Event) : nat :=
  List.length (filter p evs).

(** ** The controller *)

(** Modelled from the spec: the class declaration ([ApiController.h]) is not
    among the sources.  The cached frame attributes are the three integers
    the source hands to [GetValue], which takes a [VmbInt64_t] by reference;
    [m_pCamera] and [m_pCameraObserver] are the two handles the source
    assigns ([m_system] is the SDK itself). *)
Record ApiController : Type := {
  m_pCamera : CameraPtr;
  m_pCameraObserver : CameraObserverPtr;
  m_nPixelFormat : VmbInt64_t;
  m_nWidth : VmbInt64_t;
  m_nHeight : VmbInt64_t
}.

Definition set_m_pCamera (v : CameraPtr) (c : ApiController) : ApiController :=
  {| m_pCamera := v; m_pCameraObserver := m_pCameraObserver c;
     m_nPixelFormat := m_nPixelFormat c; m_nWidth := m_nWidth c;
     m_nHeight := m_nHeight c |}.

Definition set_m_pCameraObserver (v : CameraObserverPtr) (c : ApiController)
  : ApiController :=
  {| m_pCamera := m_pCamera c; m_pCameraObserver := v;
     m_nPixelFormat := m_nPixelFormat c; m_nWidth := m_nWidth c;
     m_nHeight := m_nHeight c |}.

Definition set_m_nPixelFormat (v : VmbInt64_t) (c : ApiController) : ApiController :=
  {| m_pCamera := m_pCamera c; m_pCameraObserver := m_pCameraObserver c;
     m_nPixelFormat := v; m_nWidth := m_nWidth c; m_nHeight := m_nHeight c |}.

Definition set_m_nWidth (v : VmbInt64_t) (c : ApiController) : ApiController :=
  {| m_pCamera := m_pCamera c; m_pCameraObserver := m_pCameraObserver c;
     m_nPixelFormat := m_nPixelFormat c; m_nWidth := v; m_nHeight := m_nHeight c |}.

Definition set_m_nHeight (v : VmbInt64_t) (c : ApiController) : ApiController :=
  {| m_pCamera := m_pCamera c; m_pCameraObserver := m_pCameraObserver c;
     m_nPixelFormat := m_nPixelFormat c; m_nWidth := m_nWidth c; m_nHeight := v |}.

(** [static_cast<int>] of a 64-bit value: the low 32 bits, read as signed. *)
Definition static_cast_int (v : VmbInt64_t) : Z :=
  (v + 2 ^ 31) mod 2 ^ 32 - 2 ^ 31.

(** [static_cast<VmbPixelFormatType>]: the enumeration is 32 bits wide. *)
Definition static_cast_VmbPixelFormatType (v : VmbInt64_t) : Z :=
  v mod 2 ^ 32.

(** ApiController::ApiController() initialises [m_system] only.  [m_pCamera]
    is a default-constructed shared pointer; the raw pointer and the three
    integers are left as the storage of the object happens to hold them,
    which is what the argument [storage] stands for. *)
Definition ApiController_ctor (storage : ApiController) : ApiController :=
  set_m_pCamera nullptr storage.

(** ApiController::GetWidth, GetHeight, GetPixelFormat, GetCameraObserver *)
Definition GetWidth (c : ApiController) : Z := static_cast_int (m_nWidth c).
Definition GetHeight (c : ApiController) : Z := static_cast_int (m_nHeight c).
Definition GetPixelFormat (c : ApiController) : Z :=
  static_cast_VmbPixelFormatType (m_nPixelFormat c).
Definition GetCameraObserver (c : ApiController) : CameraObserverPtr :=
  m_pCameraObserver c.

(** The controller object and the world the SDK lives in. *)
Record Machine (W : Type) : Type := { this : ApiController; world : W }.

Arguments this {W} _.
Arguments world {W} _.

Section Controller.

Context {K : VmbConstants} {W : Type}.
Variable sdk : VimbaSDK W.

(** A computation returns a value, the machine it leaves and the SDK calls
    it made, or [None] when the fuel of the polling loop is used up. *)
Definition M (A : Type) : Type :=
  Machine W -> option (A * Machine W * list Event).

#[export] Instance Monad_M : Monad M := {
  ret := fun A (a : A) m => Some (a, m, []);
  bind := fun A B (c : M A) (k : A -> M B) m =>
    match c m with
    | None => None
    | Some (a, m1, t1) =>
        match k a m1 with
        | None => None
        | Some (b, m2, t2) => Some (b, m2, t1 ++ t2)
        end
    end
}.

(** A call into the SDK: run it on the world and log it. *)
Definition sdk_call {A : Type} (f : W -> A * W) (ev : A -> Event) : M A :=
  fun m => let (a, w) := f (world m) in
           Some (a, {| this := this m; world := w |}, [ev a]).

Definition load {A : Type} (field : ApiController -> A) : M A :=
  fun m => Some (field (this m), m, []).

Definition store (upd : ApiController -> ApiController) : M unit :=
  fun m => Some (tt, {| this := upd (this m); world := world m |}, []).

Definition out_of_fuel {A : Type} : M A := fun _ => None.

Definition succeeded (res : VmbErrorType) : bool := VmbErrorSuccess =? res.

(** *** The SDK calls as the controller issues them *)

Definition Startup : M VmbErrorType :=
  sdk_call (sys_Startup sdk) EvStartup.

Definition Shutdown : M VmbErrorType :=
  sdk_call (sys_Shutdown sdk) EvShutdown.

Definition RegisterCameraListObserver (obs : CameraObserverPtr) : M VmbErrorType :=
  sdk_call (sys_RegisterCameraListObserver sdk obs)
           (EvRegisterCameraListObserver obs).

Definition GetCameras (cameras : CameraPtrVector)
  : M (VmbErrorType * CameraPtrVector) :=
  sdk_call (sys_GetCameras sdk cameras) (fun r => EvGetCameras (fst r) (snd r)).

(** m_system.OpenCameraByID( id, mode, m_pCamera ) *)
Definition OpenCameraByID (id : string) (mode : VmbAccessModeType)
  : M VmbErrorType :=
  cam <- load m_pCamera ;;
  r <- sdk_call (sys_OpenCameraByID sdk id mode cam)
                (fun r => EvOpenCameraByID id mode (fst r) (snd r)) ;;
  store (set_m_pCamera (snd r)) ;;
  ret (fst r).

(** m_pCamera->GetFeatureByName( name, pFeature ) *)
Definition GetFeatureByName (name : string) (pFeature : FeaturePtr)
  : M (VmbErrorType * FeaturePtr) :=
  cam <- load m_pCamera ;;
  sdk_call (cam_GetFeatureByName sdk cam name pFeature)
           (fun r => EvGetFeatureByName cam name (fst r) (snd r)).

Definition RunCommand (pFeature : FeaturePtr) : M VmbErrorType :=
  sdk_call (feat_RunCommand sdk pFeature) (EvRunCommand pFeature).

Definition IsCommandDone (pFeature : FeaturePtr) (bIsCommandDone : bool)
  : M (VmbErrorType * bool) :=
  sdk_call (feat_IsCommandDone sdk pFeature bIsCommandDone)
           (fun r => EvIsCommandDone pFeature (fst r) (snd r)).

(** pFeature->GetValue( member ): the member is read, handed to the SDK
    and written back. *)
Definition GetValue (pFeature : FeaturePtr)
           (field : ApiController -> VmbInt64_t)
           (upd : VmbInt64_t -> ApiController -> ApiController)
  : M VmbErrorType :=
  v <- load field ;;
  r <- sdk_call (feat_GetValue sdk pFeature v)
                (fun r => EvGetValue pFeature (fst r) (snd r)) ;;
  store (upd (snd r)) ;;
  ret (fst r).

Definition SetValue (pFeature : FeaturePtr) (v : VmbInt64_t) : M VmbErrorType :=
  sdk_call (feat_SetValue sdk pFeature v) (EvSetValue pFeature v).

(** m_pCamera->AcquireSingleImage( rpFrame, timeout ) *)
Definition Camera_AcquireSingleImage (rpFrame : FramePtr) (timeout : Z)
  : M (VmbErrorType * FramePtr) :=
  cam <- load m_pCamera ;;
  sdk_call (cam_AcquireSingleImage sdk cam rpFrame timeout)
           (fun r => EvAcquireSingleImage cam timeout (fst r) (snd r)).

(** m_pCamera->Close() *)
Definition Close : M VmbErrorType :=
  cam <- load m_pCamera ;;
  sdk_call (cam_Close sdk cam) (EvClose cam).

(** *** ApiController::StartUp *)
Definition StartUp : M VmbErrorType :=
  res <- Startup ;;
  if succeeded res then
    obs <- sdk_call (new_CameraObserver sdk) EvNewCameraObserver ;;
    store (set_m_pCameraObserver obs) ;;
    obs <- load m_pCameraObserver ;;
    RegisterCameraListObserver obs
  else
    ret res.

(** *** ApiController::ShutDown *)
Definition ShutDown : M unit :=
  Shutdown ;; ret tt.

(** *** ApiController::AcquireSingleImage *)

(** The do-while loop on [IsCommandDone]: leave on a failing status, go
    round again while the command is not done. *)
Fixpoint poll_IsCommandDone (fuel : nat) (pCommandFeature : FeaturePtr)
         (bIsCommandDone : bool) : M unit :=
  match fuel with
  | O => out_of_fuel
  | S fuel' =>
      r <- IsCommandDone pCommandFeature bIsCommandDone ;;
      if negb (succeeded (fst r)) then
        ret tt
      else if Bool.eqb false (snd r) then
        poll_IsCommandDone fuel' pCommandFeature (snd r)
      else
        ret tt
  end.

(** Set the GeV packet size to the highest possible value: no status of
    this block is stored in [res]. *)
Definition AdjustPacketSize (fuel : nat) : M unit :=
  let pCommandFeature := nullptr in
  r <- GetFeatureByName "GVSPAdjustPacketSize"%string pCommandFeature ;;
  let pCommandFeature := snd r in
  if succeeded (fst r) then
    res <- RunCommand pCommandFeature ;;
    if succeeded res then
      let bIsCommandDone := false in
      poll_IsCommandDone fuel pCommandFeature bIsCommandDone
    else
      ret tt
  else
    ret tt.

(** Width, height, pixel format and the capture: the nested conditionals
    of the source, returning the final [res] and [rpFrame]. *)
Definition ConfigureAndAcquire (rpFrame : FramePtr)
  : M (VmbErrorType * FramePtr) :=
  let pFormatFeature := nullptr in
  r <- GetFeatureByName "Width"%string pFormatFeature ;;
  let res := fst r in
  let pFormatFeature := snd r in
  if succeeded res then
    res <- GetValue pFormatFeature m_nWidth set_m_nWidth ;;
    if succeeded res then
      r <- GetFeatureByName "Height"%string pFormatFeature ;;
      let res := fst r in
      let pFormatFeature := snd r in
      if succeeded res then
        GetValue pFormatFeature m_nHeight set_m_nHeight ;;
        if succeeded res then
          r <- GetFeatureByName "PixelFormat"%string pFormatFeature ;;
          let res := fst r in
          let pFormatFeature := snd r in
          if succeeded res then
            res <- SetValue pFormatFeature VmbPixelFormatRgb8 ;;
            res <- (if negb (succeeded res)
                    then SetValue pFormatFeature VmbPixelFormatMono8
                    else ret res) ;;
            GetValue pFormatFeature m_nPixelFormat set_m_nPixelFormat ;;
            if succeeded res then
              r <- Camera_AcquireSingleImage rpFrame 2000 ;;
              ret r
            else
              ret (res, rpFrame)
          else
            ret (res, rpFrame)
        else
          ret (res, rpFrame)
      else
        ret (res, rpFrame)
    else
      ret (res, rpFrame)
  else
    ret (res, rpFrame).

Definition AcquireSingleImage (fuel : nat) (rStrCameraID : string)
           (rpFrame : FramePtr) : M (VmbErrorType * FramePtr) :=
  res <- OpenCameraByID rStrCameraID VmbAccessModeFull ;;
  if succeeded res then
    AdjustPacketSize fuel ;;
    r <- ConfigureAndAcquire rpFrame ;;
    Close ;;
    ret r
  else
    ret (res, rpFrame).

(** *** ApiController::GetCameraList *)
Definition GetCameraList : M CameraPtrVector :=
  let cameras := [] in
  r <- GetCameras cameras ;;
  if succeeded (fst r) then
    ret (snd r)
  else
    ret [].

End Controller.

(** What a run returned, the machine it left, and the calls it made. *)
Definition value_of {A S : Type} (o : option (A * S * list Event)) : option A :=
  match o with Some (a, _, _) => Some a | None => None end.

Definition events_of {A S : Type} (o : option (A * S * list Event)) : list Event :=
  match o with Some (_, _, t) => t | None => [] end.

(** ** Traces of [AcquireSingleImage]

    The calls made by the blocks of [AcquireSingleImage], as relations between
    the SDK's answers and the event list: the polling loop first, then the
    configuration and capture. *)
Section Traces.

Context {K : VmbConstants} {W : Type}.
Variable sdk : VimbaSDK W.

Local Notation "'ok'" := VmbErrorSuccess.

(** [Polls f b w evs w']: started in world [w] with the flag at [b], the
    loop polls as listed in [evs] and leaves in world [w'].  It leaves on a
    poll that fails or that reports the command done, and on no other. *)
Inductive Polls (f : FeaturePtr) : bool -> W -> list Event -> W -> Prop :=
| Polls_failed b w res d w' :
    feat_IsCommandDone sdk f b w = (res, d, w') -> res <> ok ->
    Polls f b w [EvIsCommandDone f res d] w'
| Polls_done b w w' :
    feat_IsCommandDone sdk f b w = (ok, true, w') ->
    Polls f b w [EvIsCommandDone f ok true] w'
| Polls_again b w w1 evs w' :
    feat_IsCommandDone sdk f b w = (ok, false, w1) ->
    Polls f false w1 evs w' ->
    Polls f b w (EvIsCommandDone f ok false :: evs) w'.

(** The events of the packet-size block. *)
Definition is_packet_size_call (e : Event) : bool :=
  match e with
  | EvGetFeatureByName _ name _ _ => String.eqb name "GVSPAdjustPacketSize"
  | EvRunCommand _ _ | EvIsCommandDone _ _ _ => true
  | _ => false
  end.

(** The calls up to the look-up of the PixelFormat feature, once the width
    and height features have been found. *)
Definition format_prefix (cam : CameraPtr) (fW : FeaturePtr) (w : VmbInt64_t)
           (fH : FeaturePtr) (sH : VmbErrorType) (h : VmbInt64_t)
           (sP : VmbErrorType) (fP : FeaturePtr) : list Event :=
  [ EvGetFeatureByName cam "Width" ok fW; EvGetValue fW ok w;
    EvGetFeatureByName cam "Height" ok fH; EvGetValue fH sH h;
    EvGetFeatureByName cam "PixelFormat" sP fP ].

(** [ConfTrace cam c rpFrame evs r c']: the ways through the nested
    conditionals of lines 138 to 177, for a controller [c] whose camera is
    [cam]: the calls made, the final [(res, rpFrame)] and the controller
    left. *)
Inductive ConfTrace (cam : CameraPtr) (c : ApiController) (rpFrame : FramePtr)
  : list Event -> VmbErrorType * FramePtr -> ApiController -> Prop :=
| Conf_no_width r fW :
    r <> ok ->
    ConfTrace cam c rpFrame
      [EvGetFeatureByName cam "Width" r fW] (r, rpFrame) c
| Conf_width_unread fW r w :
    r <> ok ->
    ConfTrace cam c rpFrame
      [EvGetFeatureByName cam "Width" ok fW; EvGetValue fW r w]
      (r, rpFrame) (set_m_nWidth w c)
| Conf_no_height fW w r fH :
    r <> ok ->
    ConfTrace cam c rpFrame
      [EvGetFeatureByName cam "Width" ok fW; EvGetValue fW ok w;
       EvGetFeatureByName cam "Height" r fH]
      (r, rpFrame) (set_m_nWidth w c)
| Conf_no_format fW w fH sH h r fP :
    r <> ok ->
    ConfTrace cam c rpFrame
      (format_prefix cam fW w fH sH h r fP)
      (r, rpFrame) (set_m_nHeight h (set_m_nWidth w c))
| Conf_format_rejected fW w fH sH h fP s1 s2 sp p :
    s1 <> ok -> s2 <> ok ->
    ConfTrace cam c rpFrame
      (format_prefix cam fW w fH sH h ok fP ++
       [EvSetValue fP VmbPixelFormatRgb8 s1;
        EvSetValue fP VmbPixelFormatMono8 s2;
        EvGetValue fP sp p])
      (s2, rpFrame)
      (set_m_nPixelFormat p (set_m_nHeight h (set_m_nWidth w c)))
| Conf_rgb fW w fH sH h fP sp p sc frame :
    ConfTrace cam c rpFrame
      (format_prefix cam fW w fH sH h ok fP ++
       [EvSetValue fP VmbPixelFormatRgb8 ok;
        EvGetValue fP sp p;
        EvAcquireSingleImage cam 2000 sc frame])
      (sc, frame)
      (set_m_nPixelFormat p (set_m_nHeight h (set_m_nWidth w c)))
| Conf_mono fW w fH sH h fP s1 sp p sc frame :
    s1 <> ok ->
    ConfTrace cam c rpFrame
      (format_prefix cam fW w fH sH h ok fP ++
       [EvSetValue fP VmbPixelFormatRgb8 s1;
        EvSetValue fP VmbPixelFormatMono8 ok;
        EvGetValue fP sp p;
        EvAcquireSingleImage cam 2000 sc frame])
      (sc, frame)
      (set_m_nPixelFormat p (set_m_nHeight h (set_m_nWidth w c))).

(** [AdjustTrace cam w evs w']: the ways through the packet-size block of
    lines 123 to 137, from world [w] to world [w']. *)
Inductive AdjustTrace (cam : CameraPtr) : W -> list Event -> W -> Prop :=
| Adjust_no_feature w r f w1 :
    cam_GetFeatureByName sdk cam "GVSPAdjustPacketSize" nullptr w = (r, f, w1) ->
    r <> ok ->
    AdjustTrace cam w [EvGetFeatureByName cam "GVSPAdjustPacketSize" r f] w1
| Adjust_not_run w f w1 r w2 :
    cam_GetFeatureByName sdk cam "GVSPAdjustPacketSize" nullptr w = (ok, f, w1) ->
    feat_RunCommand sdk f w1 = (r, w2) ->
    r <> ok ->
    AdjustTrace cam w
      [EvGetFeatureByName cam "GVSPAdjustPacketSize" ok f; EvRunCommand f r] w2
| Adjust_polled w f w1 w2 evs w3 :
    cam_GetFeatureByName sdk cam "GVSPAdjustPacketSize" nullptr w = (ok, f, w1) ->
    feat_RunCommand sdk f w1 = (ok, w2) ->
    Polls f false w2 evs w3 ->
    AdjustTrace cam w
      (EvGetFeatureByName cam "GVSPAdjustPacketSize" ok f
         :: EvRunCommand f ok :: evs) w3.

(** The machine [AcquireSingleImage] works on once the camera is open. *)
Definition opened (m : Machine W) (cam : CameraPtr) (w : W) : Machine W :=
  {| this := set_m_pCamera cam (this m); world := w |}.

End Traces.

(** ** A simulated device

    To run the controller, the SDK is instantiated with a small simulated
    system: one camera, answering the calls of the controller with the
    statuses a [Device] prescribes.  The enumerators take the values of the
    Vimba headers. *)
#[export] Instance Vimba : VmbConstants := {|
  VmbErrorSuccess := 0;
  VmbAccessModeFull := 1;
  VmbPixelFormatMono8 := 0x01080001;
  VmbPixelFormatRgb8 := 0x02180014
|}.

Module Sim.

(** The calls whose status a device can be told to fail. *)
Inductive Site : Type :=
| AtStartup | AtRegister | AtGetCameras | AtPacketSize | AtRunCommand
| AtIsCommandDone | AtWidthRead | AtHeightRead | AtRgb8 | AtMono8 | AtReadBack
| AtCapture.

Definition site_index (s : Site) : nat :=
  match s with
  | AtStartup => 0 | AtRegister => 1 | AtGetCameras => 2 | AtPacketSize => 3
  | AtRunCommand => 4 | AtIsCommandDone => 5 | AtHeightRead => 6 | AtRgb8 => 7
  | AtMono8 => 8 | AtReadBack => 9 | AtCapture => 10 | AtWidthRead => 11
  end%nat.

Record Device : Type := {
  status_at : Site -> VmbErrorType;
  camera_id : string;
  attached : CameraPtrVector;
  (* polls answered "not done" before the command completes; None: never *)
  polls_needed : option nat;
  width : VmbInt64_t;
  height : VmbInt64_t;
  (* the format the device reports; None: the one that was last set *)
  format_reported : option VmbInt64_t
}.

Record World : Type := {
  polls : nat;
  format : VmbInt64_t;
  observers : nat
}.

Definition VmbErrorNotFound : VmbErrorType := -3.
Definition VmbErrorBadHandle : VmbErrorType := -4.
Definition VmbErrorInvalidValue : VmbErrorType := -11.
Definition VmbErrorTimeout : VmbErrorType := -12.

Definition the_camera : CameraPtr := 7%nat.
Definition the_frame : FramePtr := 9%nat.
Definition width_feature : FeaturePtr := 1%nat.
Definition height_feature : FeaturePtr := 2%nat.
Definition format_feature : FeaturePtr := 3%nat.
Definition packet_size_feature : FeaturePtr := 4%nat.

(** Answer [v] with the status prescribed at [s], and [v0] when it is a
    failure. *)
Definition answer {A : Type} (d : Device) (s : Site) (v v0 : A)
  : VmbErrorType * A :=
  if status_at d s =? 0 then (0, v) else (status_at d s, v0).

Definition get_feature (d : Device) (name : string) (f : FeaturePtr)
  : VmbErrorType * FeaturePtr :=
  if String.eqb name "Width" then (0, width_feature)
  else if String.eqb name "Height" then (0, height_feature)
  else if String.eqb name "PixelFormat" then (0, format_feature)
  else if String.eqb name "GVSPAdjustPacketSize"
       then answer d AtPacketSize packet_size_feature f
  else (VmbErrorNotFound, f).

Definition polled (w : World) : World :=
  {| polls := S (polls w); format := format w; observers := observers w |}.

Definition is_command_done (d : Device) (b : bool) (w : World)
  : VmbErrorType * bool :=
  let done := match polls_needed d with
              | Some n => (n <=? polls w)%nat
              | None => false
              end in
  answer d AtIsCommandDone done b.

Definition get_value (d : Device) (f : FeaturePtr) (v : VmbInt64_t) (w : World)
  : VmbErrorType * VmbInt64_t :=
  if (f =? width_feature)%nat then answer d AtWidthRead (width d) v
  else if (f =? height_feature)%nat then answer d AtHeightRead (height d) v
  else if (f =? format_feature)%nat then
    answer d AtReadBack
           (match format_reported d with Some x => x | None => format w end) v
  else (VmbErrorBadHandle, v).

Definition set_value (d : Device) (f : FeaturePtr) (v : VmbInt64_t) (w : World)
  : VmbErrorType * World :=
  let selected := {| polls := polls w; format := v; observers := observers w |} in
  if (f =? format_feature)%nat then
    if v =? VmbPixelFormatRgb8 then answer d AtRgb8 selected w
    else if v =? VmbPixelFormatMono8 then answer d AtMono8 selected w
    else (VmbErrorInvalidValue, w)
  else (VmbErrorBadHandle, w).

Definition sdk (d : Device) : VimbaSDK World := {|
  sys_Startup := fun w => (status_at d AtStartup, w);
  sys_Shutdown := fun w => (0, w);
  sys_RegisterCameraListObserver := fun _ w => (status_at d AtRegister, w);
  sys_GetCameras := fun v w => (answer d AtGetCameras (attached d) v, w);
  sys_OpenCameraByID := fun id _ cam w =>
    if String.eqb id (camera_id d) then (0, the_camera, w)
    else (VmbErrorNotFound, cam, w);
  cam_GetFeatureByName := fun _ name f w => (get_feature d name f, w);
  cam_AcquireSingleImage := fun _ frame _ w =>
    (answer d AtCapture the_frame frame, w);
  cam_Close := fun _ w => (0, w);
  feat_RunCommand := fun _ w =>
    (status_at d AtRunCommand,
     {| polls := 0; format := format w; observers := observers w |});
  feat_IsCommandDone := fun _ b w => (is_command_done d b w, polled w);
  feat_GetValue := fun f v w => (get_value d f v w, w);
  feat_SetValue := fun f v w => set_value d f v w;
  new_CameraObserver := fun w =>
    (S (observers w),
     {| polls := polls w; format := format w; observers := S (observers w) |})
|}.

(** A GigE camera without faults, whose packet-size command completes at the
    third poll. *)
Definition gige : Device := {|
  status_at := fun _ => 0;
  camera_id := "DEV_000F31000001";
  attached := [the_camera];
  polls_needed := Some 2%nat;
  width := 640;
  height := 480;
  format_reported := None
|}.

(** [d], failing with [code] at [site]. *)
Definition failing (site : Site) (code : VmbErrorType) (d : Device) : Device := {|
  status_at := fun s =>
    if (site_index s =? site_index site)%nat then code else status_at d s;
  camera_id := camera_id d;
  attached := attached d;
  polls_needed := polls_needed d;
  width := width d;
  height := height d;
  format_reported := format_reported d
|}.

Definition completing (n : option nat) (d : Device) : Device := {|
  status_at := status_at d;
  camera_id := camera_id d;
  attached := attached d;
  polls_needed := n;
  width := width d;
  height := height d;
  format_reported := format_reported d
|}.

Definition reporting (fmt : VmbInt64_t) (d : Device) : Device := {|
  status_at := status_at d;
  camera_id := camera_id d;
  attached := attached d;
  polls_needed := polls_needed d;
  width := width d;
  height := height d;
  format_reported := Some fmt
|}.

Definition unplugged (d : Device) : Device := {|
  status_at := status_at d;
  camera_id := camera_id d;
  attached := [];
  polls_needed := polls_needed d;
  width := width d;
  height := height d;
  format_reported := format_reported d
|}.

(** A controller whose members hold [0], in a fresh world. *)
Definition fresh : Machine World := {|
  this := {| m_pCamera := nullptr; m_pCameraObserver := nullptr;
             m_nPixelFormat := 0; m_nWidth := 0; m_nHeight := 0 |};
  world := {| polls := 0; format := 0; observers := 0 |}
|}.

End Sim.

(** The identifier of the simulated camera. *)
Definition DEV : string := "DEV_000F31000001".

(** ** The calls of a trace, by kind *)

Definition is_RunCommand (e : Event) : bool :=
  match e with EvRunCommand _ _ => true | _ => false end.

Definition is_IsCommandDone (e : Event) : bool :=
  match e with EvIsCommandDone _ _ _ => true | _ => false end.

Definition is_SetValue (e : Event) : bool :=
  match e with EvSetValue _ _ _ => true | _ => false end.

(** The values the [GetValue] calls of a trace left in their argument, in
    the order of the calls. *)
Definition GetValue_values (evs : list Event) : list VmbInt64_t :=
  flat_map (fun e => match e with EvGetValue _ _ v => [v] | _ => [] end) evs.

(** ** The window of a camera

    What the SDK accepts on a camera, as an automaton over the calls: a
    camera is worked on between a successful [OpenCameraByID] and its
    [Close]; a feature is used once a look-up on that camera has returned it
    with success; a command is polled once [RunCommand] has started it. *)
Inductive DeviceState : Type :=
| Closed
| Opened (cam : CameraPtr) (known started : list FeaturePtr).

Definition has (f : FeaturePtr) (l : list FeaturePtr) : bool :=
  existsb (Nat.eqb f) l.

Section Protocol.

Context {K : VmbConstants}.

(** The state after one call, or [None] when the call is made outside the
    window. *)
Definition protocol_step (s : DeviceState) (e : Event) : option DeviceState :=
  match s, e with
  | Closed, EvOpenCameraByID _ _ res cam =>
      Some (if succeeded res then Opened cam [] [] else Closed)
  | Opened cam known started, EvGetFeatureByName cam' _ res f =>
      if (cam' =? cam)%nat
      then Some (Opened cam (if succeeded res then f :: known else known) started)
      else None
  | Opened cam known started, EvRunCommand f res =>
      if has f known
      then Some (Opened cam known (if succeeded res then f :: started else started))
      else None
  | Opened cam known started, EvIsCommandDone f _ _ =>
      if has f started then Some s else None
  | Opened cam known started, EvGetValue f _ _ =>
      if has f known then Some s else None
  | Opened cam known started, EvSetValue f _ _ =>
      if has f known then Some s else None
  | Opened cam known started, EvAcquireSingleImage cam' _ _ _ =>
      if (cam' =? cam)%nat then Some s else None
  | Opened cam known started, EvClose cam' _ =>
      if (cam' =? cam)%nat then Some Closed else None
  | _, _ => None
  end.

Fixpoint protocol (s : DeviceState) (evs : list Event) : option DeviceState :=
  match evs with
  | [] => Some s
  | e :: rest =>
      match protocol_step s e with
      | Some s' => protocol s' rest
      | None => None
      end
  end.

End Protocol.

Unset Implicit Arguments.

(** ** Basic facts *)

Section Facts.

Context {K : VmbConstants} {W : Type}.
Variable sdk : VimbaSDK W.

Local Notation "'ok'" := VmbErrorSuccess.

Lemma succeeded_true (res : VmbErrorType) :
  succeeded res = true <-> res = ok.
Proof.
  unfold succeeded. rewrite Z.eqb_eq. split; congruence.
Qed.

Lemma succeeded_false (res : VmbErrorType) :
  succeeded res = false <-> res <> ok.
Proof.
  unfold succeeded. rewrite Z.eqb_neq. split; congruence.
Qed.

Lemma succeeded_ok : succeeded ok = true.
Proof. apply succeeded_true. reflexivity. Qed.

End Facts.

(** ** Symbolic execution

    [exec_unfold] exposes the SDK calls of a run, [exec_case] splits on the
    answer of the first call (or test) the run depends on. *)
Ltac exec_unfold :=
  unfold AcquireSingleImage, AdjustPacketSize, ConfigureAndAcquire, StartUp,
    ShutDown, GetCameraList, OpenCameraByID, GetFeatureByName, RunCommand,
    IsCommandDone, GetValue, SetValue, Camera_AcquireSingleImage, Close,
    Startup, Shutdown, RegisterCameraListObserver, GetCameras,
    sdk_call, load, store, out_of_fuel in *;
  cbn [bind ret Monad_M fst snd this world app] in *.

Ltac exec_simpl :=
  cbn [bind ret Monad_M fst snd this world app negb Bool.eqb
       m_pCamera m_pCameraObserver m_nPixelFormat m_nWidth m_nHeight
       set_m_pCamera set_m_pCameraObserver set_m_nPixelFormat set_m_nWidth
       set_m_nHeight] in *.

Ltac no_inner_match x :=
  lazymatch x with
  | context [match _ with _ => _ end] => fail
  | _ => idtac
  end.

Ltac exec_destruct x :=
  no_inner_match x;
  first [ is_var x; destruct x
        | let E := fresh "E" in destruct x eqn:E ];
  exec_simpl.

Ltac exec_case :=
  match goal with
  | H : context [match ?x with _ => _ end] |- _ => exec_destruct x
  | |- context [match ?x with _ => _ end] => exec_destruct x
  end.

Ltac status_facts :=
  repeat match goal with
         | H : negb _ = true |- _ => apply negb_true_iff in H
         | H : negb _ = false |- _ => apply negb_false_iff in H
         | H : succeeded _ = true |- _ => apply succeeded_true in H
         | H : succeeded _ = false |- _ => apply succeeded_false in H
         end.

Ltac trace_eq :=
  unfold format_prefix; cbn [app]; rewrite <- ?app_assoc; cbn [app];
  reflexivity.

(** Which element of a listed trace a given call is. *)
Ltac in_inv H :=
  cbn [In] in H;
  repeat match type of H with
         | _ \/ _ => destruct H as [H|H]
         end;
  try contradiction; try discriminate H;
  inversion H; subst.

Ltac split_pairs :=
  repeat match goal with
         | p : (_ * _)%type |- _ => destruct p
         end.

Section Exec.

Context {K : VmbConstants} {W : Type}.
Variable sdk : VimbaSDK W.

Local Notation "'ok'" := VmbErrorSuccess.

Lemma poll_IsCommandDone_sound fuel f :
  forall b m m' evs,
    poll_IsCommandDone sdk fuel f b m = Some (tt, m', evs) ->
    Polls sdk f b (world m) evs (world m') /\ this m' = this m /\
    (length evs <= fuel)%nat.
Proof.
  induction fuel as [|fuel IH]; intros b m m' evs H.
  - discriminate.
  - cbn [poll_IsCommandDone] in H. exec_unfold.
    destruct (feat_IsCommandDone sdk f b (world m)) as [[res d] w1] eqn:E.
    cbn [fst snd] in H.
    destruct (succeeded res) eqn:S; status_facts; cbn [negb] in H.
    + subst res. destruct d; cbn [Bool.eqb] in H.
      * inversion H; subst. cbn. repeat split; try lia.
        now apply Polls_done.
      * destruct (poll_IsCommandDone sdk fuel f false _) as [[[[] m2] t2]|] eqn:P;
          [|discriminate].
        inversion H; subst.
        apply IH in P. cbn in P. destruct P as (P & T & L).
        repeat split; [|assumption|cbn; lia].
        eapply Polls_again; eassumption.
    + inversion H; subst.
      cbn. repeat split; try lia. now apply Polls_failed.
Qed.

Lemma poll_IsCommandDone_complete f b w evs w' :
  Polls sdk f b w evs w' ->
  forall c fuel, (length evs <= fuel)%nat ->
    poll_IsCommandDone sdk fuel f b {| this := c; world := w |}
    = Some (tt, {| this := c; world := w' |}, evs).
Proof.
  induction 1 as [b w res d w' E R | b w w' E | b w w1 evs w' E P IH];
    intros c fuel L; (destruct fuel as [|fuel]; [cbn in L; lia|]);
    cbn [poll_IsCommandDone]; exec_unfold; rewrite E; cbn [fst snd].
  - apply succeeded_false in R. rewrite R. reflexivity.
  - rewrite succeeded_ok. reflexivity.
  - rewrite succeeded_ok. cbn [negb Bool.eqb].
    rewrite IH by (cbn in L; lia). reflexivity.
Qed.

(** A device that always answers "not done" keeps the loop going. *)
Lemma poll_IsCommandDone_never_done f :
  (forall b w, exists w', feat_IsCommandDone sdk f b w = (ok, false, w')) ->
  forall fuel b m, poll_IsCommandDone sdk fuel f b m = None.
Proof.
  intros N. induction fuel as [|fuel IH]; intros b m.
  - reflexivity.
  - cbn [poll_IsCommandDone]. exec_unfold.
    destruct (N b (world m)) as [w' E]. rewrite E. cbn [fst snd].
    rewrite succeeded_ok. cbn [negb Bool.eqb]. rewrite IH. reflexivity.
Qed.

Lemma AdjustPacketSize_sound fuel m u m' evs :
  AdjustPacketSize sdk fuel m = Some (u, m', evs) ->
  AdjustTrace sdk (m_pCamera (this m)) (world m) evs (world m') /\
  this m' = this m.
Proof.
  intros H. exec_unfold.
  destruct (cam_GetFeatureByName sdk _ _ _ _) as [[r f] w1] eqn:E1.
  exec_simpl.
  destruct (succeeded r) eqn:S1; status_facts; exec_simpl.
  - subst r. destruct (feat_RunCommand sdk f w1) as [r2 w2] eqn:E2.
    exec_simpl.
    destruct (succeeded r2) eqn:S2; status_facts; exec_simpl.
    + subst r2.
      destruct (poll_IsCommandDone sdk fuel f false _) as [[[[] m2] t2]|] eqn:P;
        [|discriminate].
      apply poll_IsCommandDone_sound in P. cbn in P. destruct P as (P & T & _).
      inversion H; subst. split; [|assumption].
      eapply Adjust_polled; eassumption.
    + inversion H; subst. cbn. split; [|reflexivity].
      eapply Adjust_not_run; eassumption.
  - inversion H; subst. cbn. split; [|reflexivity].
    now apply Adjust_no_feature.
Qed.

Lemma AdjustPacketSize_complete cam w evs w' :
  AdjustTrace sdk cam w evs w' ->
  forall c fuel, m_pCamera c = cam -> (length evs <= fuel + 2)%nat ->
    AdjustPacketSize sdk fuel {| this := c; world := w |}
    = Some (tt, {| this := c; world := w' |}, evs).
Proof.
  intros T c fuel C L. subst cam.
  destruct T as [w r f w1 E R | w f w1 r w2 E1 E2 R | w f w1 w2 evs w3 E1 E2 P];
    exec_unfold.
  - rewrite E. exec_simpl. apply succeeded_false in R. rewrite R. reflexivity.
  - rewrite E1. exec_simpl. rewrite succeeded_ok. exec_simpl.
    rewrite E2. exec_simpl.
    apply succeeded_false in R. rewrite R. reflexivity.
  - rewrite E1. exec_simpl. rewrite succeeded_ok. exec_simpl.
    rewrite E2. exec_simpl. rewrite succeeded_ok.
    rewrite (poll_IsCommandDone_complete _ _ _ _ _ P) by (cbn in L; lia).
    reflexivity.
Qed.

(** The configuration and capture block always returns, along one of the
    ways of [ConfTrace]. *)
Lemma ConfigureAndAcquire_total rpFrame m :
  exists r m' evs,
    ConfigureAndAcquire sdk rpFrame m = Some (r, m', evs) /\
    ConfTrace (m_pCamera (this m)) (this m) rpFrame evs r (this m').
Proof.
  exec_unfold.
  repeat exec_case; split_pairs; simpl in *; status_facts; subst;
    try congruence.
  all: do 3 eexists; (split; [reflexivity|]); simpl.
  - now apply Conf_mono.
  - now apply Conf_format_rejected.
  - apply Conf_rgb.
  - now apply Conf_no_format.
  - now apply Conf_no_height.
  - now apply Conf_width_unread.
  - now apply Conf_no_width.
Qed.

Lemma ConfTrace_camera cam c rpFrame evs r c' :
  ConfTrace cam c rpFrame evs r c' -> m_pCamera c' = m_pCamera c.
Proof. destruct 1; reflexivity. Qed.

Lemma ConfTrace_observer cam c rpFrame evs r c' :
  ConfTrace cam c rpFrame evs r c' ->
  m_pCameraObserver c' = m_pCameraObserver c.
Proof. destruct 1; reflexivity. Qed.

(** When the camera cannot be opened, the call is over. *)
Lemma AcquireSingleImage_not_opened fuel id rpFrame m res cam w1 :
  sys_OpenCameraByID sdk id VmbAccessModeFull (m_pCamera (this m)) (world m)
  = (res, cam, w1) ->
  res <> ok ->
  AcquireSingleImage sdk fuel id rpFrame m
  = Some ((res, rpFrame), opened m cam w1,
          [EvOpenCameraByID id VmbAccessModeFull res cam]).
Proof.
  intros E R. exec_unfold. rewrite E. exec_simpl.
  apply succeeded_false in R. rewrite R. reflexivity.
Qed.

(** When it can, the three blocks run in turn and the camera is closed. *)
Lemma AcquireSingleImage_opened fuel id rpFrame m cam w1 :
  sys_OpenCameraByID sdk id VmbAccessModeFull (m_pCamera (this m)) (world m)
  = (ok, cam, w1) ->
  AcquireSingleImage sdk fuel id rpFrame m
  = match AdjustPacketSize sdk fuel (opened m cam w1) with
    | None => None
    | Some (_, m2, t_adj) =>
        match ConfigureAndAcquire sdk rpFrame m2 with
        | None => None
        | Some (r, m3, t_conf) =>
            let (c, w4) := cam_Close sdk (m_pCamera (this m3)) (world m3) in
            Some (r, {| this := this m3; world := w4 |},
                  EvOpenCameraByID id VmbAccessModeFull ok cam
                    :: t_adj ++ t_conf ++ [EvClose (m_pCamera (this m3)) c])
        end
    end.
Proof.
  intros E. unfold AcquireSingleImage, OpenCameraByID, Close, sdk_call, load, store.
  exec_simpl. rewrite E. exec_simpl. rewrite succeeded_ok.
  unfold opened.
  destruct (AdjustPacketSize sdk fuel _) as [[[u m2] t1]|]; [|reflexivity].
  destruct (ConfigureAndAcquire sdk rpFrame m2) as [[[r m3] t2]|]; [|reflexivity].
  destruct (cam_Close sdk _ _) as [c w4]. reflexivity.
Qed.

(** Every returning call on an opened camera is: the open, a way through
    the packet-size block, a way through the configuration and capture, and
    the close. *)
Lemma AcquireSingleImage_inv fuel id rpFrame m cam w1 r m' evs :
  sys_OpenCameraByID sdk id VmbAccessModeFull (m_pCamera (this m)) (world m)
  = (ok, cam, w1) ->
  AcquireSingleImage sdk fuel id rpFrame m = Some (r, m', evs) ->
  exists t_adj w2 t_conf c,
    AdjustTrace sdk cam w1 t_adj w2 /\
    ConfTrace cam (set_m_pCamera cam (this m)) rpFrame t_conf r (this m') /\
    evs = EvOpenCameraByID id VmbAccessModeFull ok cam
            :: t_adj ++ t_conf ++ [EvClose cam c].
Proof.
  intros E H. rewrite (AcquireSingleImage_opened _ _ _ _ _ _ E) in H.
  destruct (AdjustPacketSize sdk fuel _) as [[[u m2] t1]|] eqn:A; [|discriminate].
  apply AdjustPacketSize_sound in A. cbn in A. destruct A as [A T].
  destruct (ConfigureAndAcquire_total rpFrame m2) as (r' & m3 & t2 & C & CT).
  rewrite C in H. rewrite T in CT. cbn in CT.
  pose proof (ConfTrace_camera _ _ _ _ _ _ CT) as PC. cbn in PC. rewrite PC in H.
  destruct (cam_Close sdk cam (world m3)) as [c w4].
  inversion H; subst. cbn.
  exists t1, (world m2), t2, c. repeat split; assumption.
Qed.

(** The call returns as soon as the packet-size block does. *)
Lemma AcquireSingleImage_returns fuel id rpFrame m cam w1 :
  sys_OpenCameraByID sdk id VmbAccessModeFull (m_pCamera (this m)) (world m)
  = (ok, cam, w1) ->
  AdjustPacketSize sdk fuel (opened m cam w1) <> None ->
  AcquireSingleImage sdk fuel id rpFrame m <> None.
Proof.
  intros E A. rewrite (AcquireSingleImage_opened _ _ _ _ _ _ E).
  destruct (AdjustPacketSize sdk fuel _) as [[[u m2] t1]|]; [|congruence].
  destruct (ConfigureAndAcquire_total rpFrame m2) as (r' & m3 & t2 & C & _).
  rewrite C. destruct (cam_Close sdk _ _). discriminate.
Qed.

Lemma AcquireSingleImage_hangs fuel id rpFrame m cam w1 :
  sys_OpenCameraByID sdk id VmbAccessModeFull (m_pCamera (this m)) (world m)
  = (ok, cam, w1) ->
  AdjustPacketSize sdk fuel (opened m cam w1) = None ->
  AcquireSingleImage sdk fuel id rpFrame m = None.
Proof.
  intros E A. rewrite (AcquireSingleImage_opened _ _ _ _ _ _ E), A. reflexivity.
Qed.

Lemma AcquireSingleImage_cases fuel id rpFrame m r m' evs :
  AcquireSingleImage sdk fuel id rpFrame m = Some (r, m', evs) ->
  (exists res cam w1,
      sys_OpenCameraByID sdk id VmbAccessModeFull (m_pCamera (this m)) (world m)
      = (res, cam, w1) /\
      res <> ok /\ r = (res, rpFrame) /\ m' = opened m cam w1 /\
      evs = [EvOpenCameraByID id VmbAccessModeFull res cam]) \/
  (exists cam w1 t_adj w2 t_conf c,
      sys_OpenCameraByID sdk id VmbAccessModeFull (m_pCamera (this m)) (world m)
      = (ok, cam, w1) /\
      AdjustTrace sdk cam w1 t_adj w2 /\
      ConfTrace cam (set_m_pCamera cam (this m)) rpFrame t_conf r (this m') /\
      evs = EvOpenCameraByID id VmbAccessModeFull ok cam
              :: t_adj ++ t_conf ++ [EvClose cam c]).
Proof.
  intros H.
  destruct (sys_OpenCameraByID sdk id VmbAccessModeFull (m_pCamera (this m))
                               (world m)) as [[res cam] w1] eqn:E.
  destruct (succeeded res) eqn:S; status_facts.
  - subst res. right.
    destruct (AcquireSingleImage_inv _ _ _ _ _ _ _ _ _ E H)
      as (t_adj & w2 & t_conf & c & A & C & ->).
    exists cam, w1, t_adj, w2, t_conf, c. repeat split; assumption.
  - left. rewrite (AcquireSingleImage_not_opened fuel _ rpFrame _ _ _ _ E S) in H.
    inversion H; subst. exists res, cam, w1. repeat split; assumption.
Qed.

End Exec.

(** ** Counting calls in a trace *)

Lemma count_app (p : Event -> bool) (l1 l2 : list Event) :
  count p (l1 ++ l2) = (count p l1 + count p l2)%nat.
Proof.
  unfold count. rewrite filter_app, length_app. reflexivity.
Qed.

Lemma count_none (p : Event -> bool) (l : list Event) :
  Forall (fun e => p e = false) l -> count p l = 0%nat.
Proof.
  unfold count. induction 1 as [|e l E _ IH]; cbn; [reflexivity|].
  rewrite E. exact IH.
Qed.

Section TraceFacts.

Context {K : VmbConstants} {W : Type}.
Variable sdk : VimbaSDK W.

Local Notation "'ok'" := VmbErrorSuccess.

Lemma Polls_packet_size f b w evs w' :
  Polls sdk f b w evs w' -> Forall (fun e => is_packet_size_call e = true) evs.
Proof.
  induction 1; repeat constructor; assumption.
Qed.

Lemma AdjustTrace_packet_size cam w evs w' :
  AdjustTrace sdk cam w evs w' ->
  Forall (fun e => is_packet_size_call e = true) evs.
Proof.
  destruct 1 as [? ? ? ? _ _ | ? ? ? ? ? _ _ _ | ? ? ? ? ? ? _ _ P];
    repeat constructor.
  eapply Polls_packet_size; eassumption.
Qed.

Lemma packet_size_call_not_Close (evs : list Event) :
  Forall (fun e => is_packet_size_call e = true) evs ->
  Forall (fun e => is_Close e = false) evs.
Proof.
  apply Forall_impl. intros [] E; try reflexivity; discriminate.
Qed.

Lemma ConfTrace_not_Close cam c rpFrame evs r c' :
  ConfTrace cam c rpFrame evs r c' -> count is_Close evs = 0%nat.
Proof. destruct 1; reflexivity. Qed.

(** The loop leaves on its last poll, which failed or reported the command
    done; every poll before it succeeded and reported it not done. *)
Lemma Polls_last f b w evs w' :
  Polls sdk f b w evs w' ->
  exists again res done,
    evs = again ++ [EvIsCommandDone f res done] /\
    Forall (fun e => e = EvIsCommandDone f ok false) again /\
    (res <> ok \/ done = true).
Proof.
  induction 1 as [b w res d w' E R | b w w' E | b w w1 evs w' E P IH].
  - exists [], res, d. repeat split; [constructor | now left].
  - exists [], ok, true. repeat split; [constructor | now right].
  - destruct IH as (again & res & d & -> & F & L).
    exists (EvIsCommandDone f ok false :: again), res, d.
    repeat split; [now constructor | assumption].
Qed.

(** The result of the configuration and capture is the status of one of the
    calls of that block. *)
Lemma ConfTrace_status cam c rpFrame evs r c' :
  ConfTrace cam c rpFrame evs r c' ->
  exists e, In e evs /\ status_of e = Some (fst r).
Proof.
  destruct 1; unfold format_prefix; cbn [app fst].
  all: match goal with
       | |- exists e, In e ?l /\ _ =>
           let rec go l' :=
             lazymatch l' with
             | ?x :: ?tl =>
                 first [ exists x; split; [cbn; auto 12 | reflexivity] | go tl ]
             end in
           go l
       end.
Qed.

Lemma ConfTrace_starts_with_Width cam c rpFrame evs r c' :
  ConfTrace cam c rpFrame evs r c' ->
  exists s fW rest, evs = EvGetFeatureByName cam "Width" s fW :: rest.
Proof.
  destruct 1; do 3 eexists; reflexivity.
Qed.

(** The SDK being a function of the world, the polls of a run are determined. *)
Lemma Polls_deterministic f b w evs w' :
  Polls sdk f b w evs w' ->
  forall evs2 w2, Polls sdk f b w evs2 w2 -> evs2 = evs /\ w2 = w'.
Proof.
  induction 1 as [b w res d w' E R | b w w' E | b w w1 evs w' E P IH];
    intros evs2 w2 Q; inversion Q; subst;
    match goal with
    | X : feat_IsCommandDone sdk f b w = _ |- _ =>
        rewrite E in X; inversion X; subst
    end;
    try congruence; try (split; reflexivity).
  match goal with
  | X : Polls sdk f false _ _ _ |- _ => apply IH in X; destruct X; subst
  end.
  split; reflexivity.
Qed.

End TraceFacts.

(** ** The claims *)

Section Claims.

Context {K : VmbConstants} {W : Type}.
Variable sdk : VimbaSDK W.

Local Notation "'ok'" := VmbErrorSuccess.

(** C2.  When the camera was opened, a call of [AcquireSingleImage] that
    returns has made exactly one [Close] call, on the camera it opened and as
    its last SDK call, whatever the later steps answered; and the call does
    return as soon as its packet-size block (the only loop) does. *)
Theorem AcquireSingleImage_closes_once id rpFrame (m : Machine W) cam w1 :
  sys_OpenCameraByID sdk id VmbAccessModeFull (m_pCamera (this m)) (world m)
  = (ok, cam, w1) ->
  (forall fuel r m' evs,
      AcquireSingleImage sdk fuel id rpFrame m = Some (r, m', evs) ->
      count is_Close evs = 1%nat /\
      exists calls c, evs = calls ++ [EvClose cam c]) /\
  (forall fuel,
      AdjustPacketSize sdk fuel (opened m cam w1) <> None ->
      AcquireSingleImage sdk fuel id rpFrame m <> None).
Proof.
  intros E. split.
  - intros fuel r m' evs H.
    destruct (AcquireSingleImage_inv sdk _ _ _ _ _ _ _ _ _ E H)
      as (t_adj & w2 & t_conf & c & A & C & ->).
    split.
    + change (EvOpenCameraByID id VmbAccessModeFull ok cam
                :: t_adj ++ t_conf ++ [EvClose cam c])
        with ([EvOpenCameraByID id VmbAccessModeFull ok cam]
                ++ t_adj ++ t_conf ++ [EvClose cam c]).
      rewrite !count_app.
      rewrite (count_none is_Close t_adj)
        by (eapply packet_size_call_not_Close, AdjustTrace_packet_size;
            eassumption).
      rewrite (ConfTrace_not_Close _ _ _ _ _ _ C). reflexivity.
    + exists (EvOpenCameraByID id VmbAccessModeFull ok cam :: t_adj ++ t_conf), c.
      cbn. now rewrite <- app_assoc.
  - intros fuel. now apply AcquireSingleImage_returns.
Qed.

(** C3.  When the camera cannot be opened, [AcquireSingleImage] returns the
    status of the open; the open is the only SDK call it makes (no feature
    call, no capture, no close), and the cached width, height and pixel
    format are left as they were. *)
Theorem AcquireSingleImage_open_failure fuel id rpFrame (m : Machine W)
        res cam w1 :
  sys_OpenCameraByID sdk id VmbAccessModeFull (m_pCamera (this m)) (world m)
  = (res, cam, w1) ->
  res <> ok ->
  exists m' evs,
    AcquireSingleImage sdk fuel id rpFrame m = Some ((res, rpFrame), m', evs) /\
    evs = [EvOpenCameraByID id VmbAccessModeFull res cam] /\
    count is_feature_call evs = 0%nat /\
    count is_capture evs = 0%nat /\
    count is_Close evs = 0%nat /\
    m_nWidth (this m') = m_nWidth (this m) /\
    m_nHeight (this m') = m_nHeight (this m) /\
    m_nPixelFormat (this m') = m_nPixelFormat (this m).
Proof.
  intros E R.
  exists (opened m cam w1), [EvOpenCameraByID id VmbAccessModeFull res cam].
  split; [now apply AcquireSingleImage_not_opened|].
  repeat split; reflexivity.
Qed.

(** C6.  [GetCameraList] returns the vector the enumeration filled when the
    enumeration succeeds and an empty vector when it fails, in both cases
    without a status; so a successful enumeration of no camera and a failed
    enumeration (on any system) return the same value. *)
Theorem GetCameraList_swallows_failure (m : Machine W) res cameras w :
  sys_GetCameras sdk [] (world m) = (res, cameras, w) ->
  GetCameraList sdk m
  = Some (if succeeded res then cameras else [],
          {| this := this m; world := w |},
          [EvGetCameras res cameras]) /\
  (res = ok -> value_of (GetCameraList sdk m) = Some cameras) /\
  (res <> ok -> value_of (GetCameraList sdk m) = Some []) /\
  (forall (W2 : Type) (sdk2 : VimbaSDK W2) (m2 : Machine W2) res2 cameras2 w2,
      sys_GetCameras sdk2 [] (world m2) = (res2, cameras2, w2) ->
      res = ok -> cameras = [] -> res2 <> ok ->
      value_of (GetCameraList sdk m) = value_of (GetCameraList sdk2 m2)).
Proof.
  intros E.
  assert (G : forall (W' : Type) (s : VimbaSDK W') (m0 : Machine W') r cs w0,
             sys_GetCameras s [] (world m0) = (r, cs, w0) ->
             GetCameraList s m0
             = Some (if succeeded r then cs else [],
                     {| this := this m0; world := w0 |},
                     [EvGetCameras r cs])).
  { intros W' s m0 r cs w0 E0. exec_unfold. rewrite E0. exec_simpl.
    destruct (succeeded r); reflexivity. }
  split; [now apply G|]. rewrite (G _ _ _ _ _ _ E). cbn [value_of].
  repeat split.
  - intros ->. now rewrite succeeded_ok.
  - intros R. apply succeeded_false in R. now rewrite R.
  - intros W2 sdk2 m2 res2 cameras2 w2 E2 -> -> R2.
    rewrite (G _ _ _ _ _ _ E2). cbn [value_of].
    apply succeeded_false in R2. now rewrite succeeded_ok, R2.
Qed.

(** C9.  [StartUp] calls [Startup] once.  When that fails, its status is
    returned and nothing else is called: no observer is created or
    registered.  When it succeeds, one observer is created, kept in
    [m_pCameraObserver] and registered once, and the status of the
    registration is returned. *)
Theorem StartUp_registers_once (m : Machine W) res w1 :
  sys_Startup sdk (world m) = (res, w1) ->
  (res <> ok ->
   StartUp sdk m
   = Some (res, {| this := this m; world := w1 |}, [EvStartup res])) /\
  (res = ok ->
   forall obs w2 reg w3,
     new_CameraObserver sdk w1 = (obs, w2) ->
     sys_RegisterCameraListObserver sdk obs w2 = (reg, w3) ->
     StartUp sdk m
     = Some (reg,
             {| this := set_m_pCameraObserver obs (this m); world := w3 |},
             [EvStartup ok; EvNewCameraObserver obs;
              EvRegisterCameraListObserver obs reg])) /\
  (exists r m' evs,
      StartUp sdk m = Some (r, m', evs) /\
      count is_Startup evs = 1%nat /\
      count is_Register evs = (if succeeded res then 1 else 0)%nat).
Proof.
  intros E. exec_unfold. rewrite E. exec_simpl.
  destruct (succeeded res) eqn:S; status_facts; exec_simpl.
  - destruct (new_CameraObserver sdk w1) as [obs w2] eqn:N. exec_simpl.
    destruct (sys_RegisterCameraListObserver sdk obs w2) as [reg w3] eqn:R.
    exec_simpl. repeat split.
    + congruence.
    + intros _ obs' w2' reg' w3' N' R'.
      inversion N'; subst. rewrite R in R'. inversion R'; subst. reflexivity.
    + do 3 eexists. split; [reflexivity|]. split; reflexivity.
  - repeat split.
    + congruence.
    + do 3 eexists. split; [reflexivity|]. split; reflexivity.
Qed.

(** C4, as amended.  After a call that returns success, the cached width is
    the value the Width feature reported in that call; the cached height is
    the value the Height feature reported when its read succeeded; and the
    cached pixel format is the value the PixelFormat feature reported when it
    was read back, successfully, after Rgb8 was set, or after Rgb8 was
    rejected and Mono8 was set.  So the cached pixel format is Rgb8 or Mono8
    whenever the read-back succeeds and reports a format the call has set
    with success.  The calls of the format block are those listed, in that
    order. *)
Theorem AcquireSingleImage_success_caches fuel id rpFrame (m : Machine W)
        frame m' evs :
  AcquireSingleImage sdk fuel id rpFrame m = Some ((ok, frame), m', evs) ->
  exists calls cam fW w fH sH h fP sets sp p c,
    evs = calls
            ++ format_prefix cam fW w fH sH h ok fP
            ++ sets
            ++ [EvGetValue fP sp p;
                EvAcquireSingleImage cam 2000 ok frame;
                EvClose cam c] /\
    (sets = [EvSetValue fP VmbPixelFormatRgb8 ok] \/
     exists s1, s1 <> ok /\
                sets = [EvSetValue fP VmbPixelFormatRgb8 s1;
                        EvSetValue fP VmbPixelFormatMono8 ok]) /\
    m_nWidth (this m') = w /\
    (sH = ok -> m_nHeight (this m') = h) /\
    (sp = ok -> m_nPixelFormat (this m') = p) /\
    (sp = ok -> In (EvSetValue fP p ok) sets ->
     m_nPixelFormat (this m') = VmbPixelFormatRgb8 \/
     m_nPixelFormat (this m') = VmbPixelFormatMono8).
Proof.
  intros H.
  apply AcquireSingleImage_cases in H.
  destruct H
    as [(res & cam & w1 & _ & R & Q & _) |
        (cam & w1 & t_adj & w2 & t_conf & c & E & A & C & ->)].
  - inversion Q; subst. congruence.
  - exists (EvOpenCameraByID id VmbAccessModeFull ok cam :: t_adj), cam.
    inversion C; subst; try congruence.
    + exists fW, w, fH, sH, h, fP, [EvSetValue fP VmbPixelFormatRgb8 ok], sp, p, c.
      split; [trace_eq|].
      split; [now left|].
      repeat (split; [try reflexivity; intros; reflexivity|]).
      intros _ I. in_inv I. now left.
    + exists fW, w, fH, sH, h, fP,
        [EvSetValue fP VmbPixelFormatRgb8 s1;
         EvSetValue fP VmbPixelFormatMono8 ok], sp, p, c.
      split; [trace_eq|].
      split; [right; now exists s1|].
      repeat (split; [try reflexivity; intros; reflexivity|]).
      intros _ I. in_inv I; [now left | now right].
Qed.

(** C5.  In a returning call in which the PixelFormat feature was obtained
    and the set of Rgb8 was rejected, the set of Rgb8 is followed at once by
    a set of Mono8 on the same feature; and when that one succeeds, what
    follows is the read-back, the capture and the close, and the status and
    frame of the capture are what the call returns.  The call does return
    once the camera is open and the packet-size block is over. *)
Theorem AcquireSingleImage_falls_back_to_Mono8 fuel id rpFrame (m : Machine W) :
  (forall r m' evs cam fP s,
      AcquireSingleImage sdk fuel id rpFrame m = Some (r, m', evs) ->
      In (EvGetFeatureByName cam "PixelFormat" ok fP) evs ->
      In (EvSetValue fP VmbPixelFormatRgb8 s) evs ->
      s <> ok ->
      exists calls s1 s2 rest,
        evs = calls
                ++ EvSetValue fP VmbPixelFormatRgb8 s1
                :: EvSetValue fP VmbPixelFormatMono8 s2
                :: rest /\
        s1 <> ok /\
        (s2 = ok ->
         exists sp p sc frame c,
           rest = [EvGetValue fP sp p;
                   EvAcquireSingleImage cam 2000 sc frame;
                   EvClose cam c] /\
           r = (sc, frame))) /\
  (forall cam w1,
      sys_OpenCameraByID sdk id VmbAccessModeFull (m_pCamera (this m)) (world m)
      = (ok, cam, w1) ->
      AdjustPacketSize sdk fuel (opened m cam w1) <> None ->
      AcquireSingleImage sdk fuel id rpFrame m <> None).
Proof.
  split; [|intros cam w1; apply AcquireSingleImage_returns].
  intros r m' evs cam fP s.
  intros H G S R.
  apply AcquireSingleImage_cases in H.
  destruct H
    as [(res & cam0 & w1 & _ & _ & _ & _ & ->) |
        (cam0 & w1 & t_adj & w2 & t_conf & c & E & A & C & ->)].
  - destruct G as [G|[]]. discriminate.
  - pose proof (AdjustTrace_packet_size _ _ _ _ _ A) as PS.
    rewrite Forall_forall in PS.
    assert (G' : In (EvGetFeatureByName cam "PixelFormat" ok fP) t_conf).
    { destruct G as [G|G]; [discriminate|].
      apply in_app_or in G. destruct G as [G|G].
      - apply PS in G. discriminate.
      - apply in_app_or in G. destruct G as [G|[G|[]]];
          [assumption|discriminate]. }
    assert (S' : In (EvSetValue fP VmbPixelFormatRgb8 s) t_conf).
    { destruct S as [S|S]; [discriminate|].
      apply in_app_or in S. destruct S as [S|S].
      - apply PS in S. discriminate.
      - apply in_app_or in S. destruct S as [S|[S|[]]];
          [assumption|discriminate]. }
    clear G S PS.
    inversion C; subst; unfold format_prefix in *; cbn [app] in *.
    + exfalso. in_inv G'.
    + exfalso. in_inv G'.
    + exfalso. in_inv G'.
    + exfalso. in_inv G'. congruence.
    + assert (fP0 = fP /\ cam0 = cam) as [-> ->]
          by (clear - G'; in_inv G'; split; reflexivity).
      exists (EvOpenCameraByID id VmbAccessModeFull ok cam :: t_adj
                ++ format_prefix cam fW w fH sH h ok fP), s1, s2,
        [EvGetValue fP sp p; EvClose cam c].
      split; [trace_eq|].
      split; [assumption|]. intros ->. congruence.
    + exfalso. in_inv S'; congruence.
    + assert (fP0 = fP /\ cam0 = cam) as [-> ->]
          by (clear - G'; in_inv G'; split; reflexivity).
      exists (EvOpenCameraByID id VmbAccessModeFull ok cam :: t_adj
                ++ format_prefix cam fW w fH sH h ok fP), s1, ok,
        [EvGetValue fP sp p; EvAcquireSingleImage cam 2000 sc frame;
         EvClose cam c].
      split; [trace_eq|].
      split; [assumption|]. intros _.
      exists sp, p, sc, frame, c. split; reflexivity.
Qed.

(** What a call goes through once the packet-size block is over, whatever
    statuses that block met. *)
Lemma AcquireSingleImage_after_packet_size id rpFrame (m : Machine W)
      cam w1 t_adj w2 fuel :
  sys_OpenCameraByID sdk id VmbAccessModeFull (m_pCamera (this m)) (world m)
  = (ok, cam, w1) ->
  AdjustTrace sdk cam w1 t_adj w2 ->
  (length t_adj <= fuel + 2)%nat ->
  exists r m2 t_conf m' c,
    ConfigureAndAcquire sdk rpFrame (opened m cam w2) = Some (r, m2, t_conf) /\
    ConfTrace cam (set_m_pCamera cam (this m)) rpFrame t_conf r (this m2) /\
    AcquireSingleImage sdk fuel id rpFrame m
    = Some (r, m',
            EvOpenCameraByID id VmbAccessModeFull ok cam
              :: t_adj ++ t_conf ++ [EvClose cam c]).
Proof.
  intros E A L.
  destruct (ConfigureAndAcquire_total sdk rpFrame (opened m cam w2))
    as (r & m2 & t_conf & C & CT).
  cbn [opened this m_pCamera set_m_pCamera] in CT.
  pose proof (ConfTrace_camera _ _ _ _ _ _ CT) as PC. cbn in PC.
  destruct (cam_Close sdk cam (world m2)) as [c w4] eqn:X.
  exists r, m2, t_conf, {| this := this m2; world := w4 |}, c.
  split; [assumption|]. split; [assumption|].
  rewrite (AcquireSingleImage_opened sdk fuel id rpFrame m _ _ E).
  unfold opened in *.
  rewrite (AdjustPacketSize_complete sdk _ _ _ _ A (set_m_pCamera cam (this m))
             fuel eq_refl L).
  rewrite C, PC, X. reflexivity.
Qed.

(** Once the packet-size command has been started, the call returns with
    [fuel] polls allowed exactly when the polling leaves within [fuel] polls,
    which it does only on a poll that failed or reported the command done;
    and it never returns on a device that always reports "not done". *)
Lemma AcquireSingleImage_polling id rpFrame (m : Machine W)
      cam w1 f w2 w3 :
  sys_OpenCameraByID sdk id VmbAccessModeFull (m_pCamera (this m)) (world m)
  = (ok, cam, w1) ->
  cam_GetFeatureByName sdk cam "GVSPAdjustPacketSize" nullptr w1 = (ok, f, w2) ->
  feat_RunCommand sdk f w2 = (ok, w3) ->
  (forall fuel,
      AcquireSingleImage sdk fuel id rpFrame m <> None <->
      exists polls w4, Polls sdk f false w3 polls w4 /\
                       (length polls <= fuel)%nat) /\
  (forall polls w4,
      Polls sdk f false w3 polls w4 ->
      exists again res done,
        polls = again ++ [EvIsCommandDone f res done] /\
        Forall (fun e => e = EvIsCommandDone f ok false) again /\
        (res <> ok \/ done = true)) /\
  ((forall b w, exists w', feat_IsCommandDone sdk f b w = (ok, false, w')) ->
   forall fuel, AcquireSingleImage sdk fuel id rpFrame m = None).
Proof.
  intros E G R.
  assert (A : forall fuel,
             AdjustPacketSize sdk fuel (opened m cam w1)
             = match poll_IsCommandDone sdk fuel f false
                       {| this := set_m_pCamera cam (this m); world := w3 |} with
               | None => None
               | Some (u, m2, t) =>
                   Some (u, m2,
                         EvGetFeatureByName cam "GVSPAdjustPacketSize" ok f
                           :: EvRunCommand f ok :: t)
               end).
  { intros fuel. unfold opened. exec_unfold. exec_simpl. rewrite G. exec_simpl.
    rewrite succeeded_ok. exec_simpl. rewrite R. exec_simpl.
    rewrite succeeded_ok.
    destruct (poll_IsCommandDone sdk fuel f false _) as [[[u m2] t]|];
      reflexivity. }
  split; [|split].
  - intros fuel. split.
    + intros H.
      destruct (AcquireSingleImage sdk fuel id rpFrame m) as [[[r m'] evs]|] eqn:Q;
        [|congruence].
      rewrite (AcquireSingleImage_opened sdk fuel id rpFrame m _ _ E), A in Q.
      destruct (poll_IsCommandDone sdk fuel f false _) as [[[[] m2] t]|] eqn:P;
        [|discriminate].
      apply poll_IsCommandDone_sound in P. cbn in P. destruct P as (P & _ & L).
      exists t, (world m2). split; assumption.
    + intros (polls & w4 & P & L).
      apply AcquireSingleImage_returns with (cam := cam) (w1 := w1);
        [assumption|].
      rewrite A, (poll_IsCommandDone_complete sdk _ _ _ _ _ P _ _ L). discriminate.
  - intros polls w4 P. eapply Polls_last; eassumption.
  - intros N fuel.
    apply AcquireSingleImage_hangs with (cam := cam) (w1 := w1); [assumption|].
    rewrite A, (poll_IsCommandDone_never_done sdk _ N). reflexivity.
Qed.

(** C10.  When the camera was opened and the packet-size block met a
    non-success status (at the look-up of GVSPAdjustPacketSize, at
    RunCommand or at a poll), the call still returns; the block is followed
    by the look-up of Width and the rest of the checked sequence, run on a
    controller the block has not touched; and what the call returns is the
    result of that sequence, a status of one of its calls. *)
Theorem packet_size_status_swallowed id rpFrame (m : Machine W)
        cam w1 t_adj w2 fuel :
  sys_OpenCameraByID sdk id VmbAccessModeFull (m_pCamera (this m)) (world m)
  = (ok, cam, w1) ->
  AdjustTrace sdk cam w1 t_adj w2 ->
  Exists (fun e => exists s, status_of e = Some s /\ s <> ok) t_adj ->
  (length t_adj <= fuel + 2)%nat ->
  exists r m2 t_conf m' c,
    ConfigureAndAcquire sdk rpFrame (opened m cam w2) = Some (r, m2, t_conf) /\
    AcquireSingleImage sdk fuel id rpFrame m
    = Some (r, m',
            EvOpenCameraByID id VmbAccessModeFull ok cam
              :: t_adj ++ t_conf ++ [EvClose cam c]) /\
    (exists s fW rest, t_conf = EvGetFeatureByName cam "Width" s fW :: rest) /\
    (exists e, In e t_conf /\ status_of e = Some (fst r)).
Proof.
  intros E A _ L.
  destruct (AcquireSingleImage_after_packet_size id rpFrame m _ _ _ _ fuel E A L)
    as (r & m2 & t_conf & m' & c & C & CT & H).
  exists r, m2, t_conf, m', c.
  split; [assumption|]. split; [assumption|]. split.
  - eapply ConfTrace_starts_with_Width; eassumption.
  - eapply ConfTrace_status; eassumption.
Qed.

End Claims.

(** ** Runs on simulated devices *)

(** On a device whose command completes after [n] polls answered "not done",
    the loop makes [n + 1] polls. *)
Lemma Sim_polls (n : nat) (b : bool) :
  forall k w,
    (Sim.polls w + k = n)%nat ->
    Polls (Sim.sdk (Sim.completing (Some n) Sim.gige)) Sim.packet_size_feature
          b w
          (repeat (EvIsCommandDone Sim.packet_size_feature 0 false) k
             ++ [EvIsCommandDone Sim.packet_size_feature 0 true])
          {| Sim.polls := S n; Sim.format := Sim.format w;
             Sim.observers := Sim.observers w |}.
Proof.
  intros k. revert b. induction k as [|k IH]; intros b w E.
  - cbn [repeat app]. replace (S n) with (S (Sim.polls w)) by lia.
    apply (Polls_done (K := Vimba)). cbn. unfold Sim.is_command_done, Sim.answer. cbn.
    replace (n <=? Sim.polls w)%nat with true
      by (symmetry; apply Nat.leb_le; lia).
    reflexivity.
  - cbn [repeat app].
    apply (Polls_again (K := Vimba)) with (w1 := Sim.polled w).
    + cbn. unfold Sim.is_command_done, Sim.answer. cbn.
      replace (n <=? Sim.polls w)%nat with false
        by (symmetry; apply Nat.leb_gt; lia).
      reflexivity.
    + apply (IH false (Sim.polled w)). cbn. lia.
Qed.

(** C7.  Once the packet-size command has been started, the call returns
    with [fuel] polls allowed exactly when the polling leaves within [fuel]
    polls, which it does only on a poll that failed or reported the command
    done, all polls before it having succeeded and reported it not done; on a
    device whose [IsCommandDone] always succeeds and reports "not done" the
    call never returns.  And the loop has no cap: whatever the number [n],
    there is a device on which the call needs more than [n] polls and then
    returns. *)
Theorem AcquireSingleImage_polling_unbounded :
  (forall (K : VmbConstants) (W : Type) (sdk : VimbaSDK W)
          id rpFrame (m : Machine W) cam w1 f w2 w3,
      sys_OpenCameraByID sdk id VmbAccessModeFull (m_pCamera (this m)) (world m)
      = (VmbErrorSuccess, cam, w1) ->
      cam_GetFeatureByName sdk cam "GVSPAdjustPacketSize" nullptr w1
      = (VmbErrorSuccess, f, w2) ->
      feat_RunCommand sdk f w2 = (VmbErrorSuccess, w3) ->
      (forall fuel,
          AcquireSingleImage sdk fuel id rpFrame m <> None <->
          exists polls w4, Polls sdk f false w3 polls w4 /\
                           (length polls <= fuel)%nat) /\
      (forall polls w4,
          Polls sdk f false w3 polls w4 ->
          exists again res done,
            polls = again ++ [EvIsCommandDone f res done] /\
            Forall (fun e => e = EvIsCommandDone f VmbErrorSuccess false) again /\
            (res <> VmbErrorSuccess \/ done = true)) /\
      ((forall b w, exists w',
             feat_IsCommandDone sdk f b w = (VmbErrorSuccess, false, w')) ->
       forall fuel, AcquireSingleImage sdk fuel id rpFrame m = None)) /\
  (forall n : nat, exists d : Sim.Device,
      AcquireSingleImage (Sim.sdk d) n DEV 0%nat Sim.fresh = None /\
      AcquireSingleImage (Sim.sdk d) (S n) DEV 0%nat Sim.fresh <> None).
Proof.
  split.
  - intros K W sdk id rpFrame m cam w1 f w2 w3.
    apply AcquireSingleImage_polling.
  - intros n. exists (Sim.completing (Some n) Sim.gige).
    destruct (AcquireSingleImage_polling
                (Sim.sdk (Sim.completing (Some n) Sim.gige)) DEV 0%nat Sim.fresh
                Sim.the_camera (world Sim.fresh) Sim.packet_size_feature
                (world Sim.fresh) (world Sim.fresh))
      as (R & _ & _); [reflexivity..|].
    pose proof (Sim_polls n false n (world Sim.fresh) eq_refl) as P.
    split.
    + destruct (AcquireSingleImage _ n DEV 0%nat Sim.fresh) eqn:Q;
        [exfalso|reflexivity].
      assert (Q' : AcquireSingleImage
                     (Sim.sdk (Sim.completing (Some n) Sim.gige))
                     n DEV 0%nat Sim.fresh <> None) by congruence.
      apply R in Q'. destruct Q' as (polls & w4 & P' & L).
      destruct (Polls_deterministic _ _ _ _ _ _ P _ _ P') as [-> _].
      rewrite length_app, repeat_length in L. cbn in L. lia.
    + apply R. eexists. eexists. split; [exact P|].
      rewrite length_app, repeat_length. cbn. lia.
Qed.

(** C1 does not hold of the code.  The status of the read of Height (line
    150) is not stored in [res]: on a device on which that read times out
    and every other call succeeds, the call goes on to the pixel format and
    the capture and returns success, the cached height being left as it
    was.  The same fault at the read of Width (line 143) is returned, and
    ends the sequence, as the claim says. *)
Theorem AcquireSingleImage_ignores_failed_Height_read :
  let run :=
    AcquireSingleImage
      (Sim.sdk (Sim.failing Sim.AtHeightRead Sim.VmbErrorTimeout Sim.gige))
      3 DEV 0%nat Sim.fresh in
  let run_width :=
    AcquireSingleImage
      (Sim.sdk (Sim.failing Sim.AtWidthRead Sim.VmbErrorTimeout Sim.gige))
      3 DEV 0%nat Sim.fresh in
  value_of run_width = Some (Sim.VmbErrorTimeout, 0%nat) /\
  events_of run_width =
    [ EvOpenCameraByID DEV VmbAccessModeFull VmbErrorSuccess 7%nat;
      EvGetFeatureByName 7%nat "GVSPAdjustPacketSize" VmbErrorSuccess 4%nat;
      EvRunCommand 4%nat VmbErrorSuccess;
      EvIsCommandDone 4%nat VmbErrorSuccess false;
      EvIsCommandDone 4%nat VmbErrorSuccess false;
      EvIsCommandDone 4%nat VmbErrorSuccess true;
      EvGetFeatureByName 7%nat "Width" VmbErrorSuccess 1%nat;
      EvGetValue 1%nat Sim.VmbErrorTimeout 0;
      EvClose 7%nat VmbErrorSuccess ] /\
  value_of run = Some (VmbErrorSuccess, Sim.the_frame) /\
  events_of run =
    [ EvOpenCameraByID DEV VmbAccessModeFull VmbErrorSuccess 7%nat;
      EvGetFeatureByName 7%nat "GVSPAdjustPacketSize" VmbErrorSuccess 4%nat;
      EvRunCommand 4%nat VmbErrorSuccess;
      EvIsCommandDone 4%nat VmbErrorSuccess false;
      EvIsCommandDone 4%nat VmbErrorSuccess false;
      EvIsCommandDone 4%nat VmbErrorSuccess true;
      EvGetFeatureByName 7%nat "Width" VmbErrorSuccess 1%nat;
      EvGetValue 1%nat VmbErrorSuccess 640;
      EvGetFeatureByName 7%nat "Height" VmbErrorSuccess 2%nat;
      EvGetValue 2%nat Sim.VmbErrorTimeout 0;
      EvGetFeatureByName 7%nat "PixelFormat" VmbErrorSuccess 3%nat;
      EvSetValue 3%nat VmbPixelFormatRgb8 VmbErrorSuccess;
      EvGetValue 3%nat VmbErrorSuccess VmbPixelFormatRgb8;
      EvAcquireSingleImage 7%nat 2000 VmbErrorSuccess 9%nat;
      EvClose 7%nat VmbErrorSuccess ] /\
  Sim.VmbErrorTimeout <> VmbErrorSuccess.
Proof.
  cbv zeta. repeat split; try reflexivity. discriminate.
Qed.

(** C4 does not hold as stated: on a device that accepts Rgb8 and reports
    another format when read back (here BayerRG8), the call returns success
    with a cached pixel format that is neither Rgb8 nor Mono8. *)
Lemma AcquireSingleImage_success_other_format :
  exists frame m' evs,
    AcquireSingleImage (Sim.sdk (Sim.reporting 0x01080009 Sim.gige))
                       3 DEV 0%nat Sim.fresh
    = Some ((VmbErrorSuccess, frame), m', evs) /\
    m_nPixelFormat (this m') <> VmbPixelFormatRgb8 /\
    m_nPixelFormat (this m') <> VmbPixelFormatMono8.
Proof.
  do 3 eexists. split; [vm_compute; reflexivity|].
  vm_compute. split; discriminate.
Qed.

(** C8 does not hold as stated: the constructor leaves the members as the
    storage holds them, so no value is what [GetWidth] returns on every
    fresh controller. *)
Lemma GetWidth_no_sentinel :
  ~ exists sentinel : Z,
      forall storage, GetWidth (ApiController_ctor storage) = sentinel.
Proof.
  intros [sentinel H].
  pose proof (H {| m_pCamera := nullptr; m_pCameraObserver := nullptr;
                   m_nPixelFormat := 0; m_nWidth := 1; m_nHeight := 0 |}) as H1.
  pose proof (H {| m_pCamera := nullptr; m_pCameraObserver := nullptr;
                   m_nPixelFormat := 0; m_nWidth := 2; m_nHeight := 0 |}) as H2.
  vm_compute in H1, H2. congruence.
Qed.

Lemma static_cast_int_small (v : Z) :
  - 2 ^ 31 <= v < 2 ^ 31 -> static_cast_int v = v.
Proof.
  intros R. unfold static_cast_int.
  rewrite Z.mod_small by lia. lia.
Qed.

(** C8, as amended.  The accessors return the members converted to their
    return type.  The constructor does not write [m_nWidth], [m_nHeight] and
    [m_nPixelFormat], and neither does [StartUp]: on a controller that has
    acquired nothing they return what the storage of the object held, which
    can be any value of the return type. *)
Theorem accessors_before_acquisition :
  (forall storage,
      GetWidth (ApiController_ctor storage) = static_cast_int (m_nWidth storage) /\
      GetHeight (ApiController_ctor storage) = static_cast_int (m_nHeight storage) /\
      GetPixelFormat (ApiController_ctor storage)
      = static_cast_VmbPixelFormatType (m_nPixelFormat storage)) /\
  (forall (K : VmbConstants) (W : Type) (sdk : VimbaSDK W) (m : Machine W)
          r m' evs,
      StartUp sdk m = Some (r, m', evs) ->
      GetWidth (this m') = GetWidth (this m) /\
      GetHeight (this m') = GetHeight (this m) /\
      GetPixelFormat (this m') = GetPixelFormat (this m)) /\
  (forall v, - 2 ^ 31 <= v < 2 ^ 31 ->
             exists storage,
               GetWidth (ApiController_ctor storage) = v /\
               GetHeight (ApiController_ctor storage) = v) /\
  (forall v, 0 <= v < 2 ^ 32 ->
             exists storage, GetPixelFormat (ApiController_ctor storage) = v).
Proof.
  split; [|split; [|split]].
  - intros storage. repeat split; reflexivity.
  - intros K W sdk m r m' evs H. exec_unfold.
    repeat exec_case; inversion H; subst; repeat split; reflexivity.
  - intros v R.
    exists {| m_pCamera := nullptr; m_pCameraObserver := nullptr;
              m_nPixelFormat := 0; m_nWidth := v; m_nHeight := v |}.
    unfold GetWidth, GetHeight. cbn [ApiController_ctor set_m_pCamera m_nWidth m_nHeight].
    rewrite static_cast_int_small by assumption. split; reflexivity.
  - intros v R.
    exists {| m_pCamera := nullptr; m_pCameraObserver := nullptr;
              m_nPixelFormat := v; m_nWidth := 0; m_nHeight := 0 |}.
    unfold GetPixelFormat, static_cast_VmbPixelFormatType.
    cbn [ApiController_ctor set_m_pCamera m_nPixelFormat].
    apply Z.mod_small. assumption.
Qed.

(** ** The theorems at concrete devices *)

Lemma AcquireSingleImage_closes_once_witness :
  sys_OpenCameraByID (Sim.sdk Sim.gige) DEV VmbAccessModeFull
                     (m_pCamera (this Sim.fresh)) (world Sim.fresh)
  = (VmbErrorSuccess, Sim.the_camera, world Sim.fresh) /\
  count is_Close
        (events_of (AcquireSingleImage (Sim.sdk Sim.gige) 3 DEV 0%nat Sim.fresh))
  = 1%nat /\
  AcquireSingleImage (Sim.sdk Sim.gige) 3 DEV 0%nat Sim.fresh <> None.
Proof.
  split; [reflexivity|].
  destruct (AcquireSingleImage_closes_once
              (Sim.sdk Sim.gige) DEV 0%nat Sim.fresh Sim.the_camera
              (world Sim.fresh)) as [C R]; [reflexivity|].
  split.
  - destruct (AcquireSingleImage (Sim.sdk Sim.gige) 3 DEV 0%nat Sim.fresh)
      as [[[r m'] evs]|] eqn:Q; [|vm_compute in Q; discriminate Q].
    exact (proj1 (C 3%nat r m' evs Q)).
  - apply R. vm_compute. discriminate.
Defined.

Lemma AcquireSingleImage_open_failure_witness :
  Sim.VmbErrorNotFound <> VmbErrorSuccess /\
  exists m',
    AcquireSingleImage (Sim.sdk Sim.gige) 0 "DEV_unknown" 0%nat Sim.fresh
    = Some ((Sim.VmbErrorNotFound, 0%nat), m',
            [EvOpenCameraByID "DEV_unknown" VmbAccessModeFull
                              Sim.VmbErrorNotFound nullptr]) /\
    m_nWidth (this m') = 0 /\ m_nHeight (this m') = 0 /\
    m_nPixelFormat (this m') = 0.
Proof.
  split; [discriminate|].
  destruct (AcquireSingleImage_open_failure
              (Sim.sdk Sim.gige) 0 "DEV_unknown" 0%nat Sim.fresh
              Sim.VmbErrorNotFound nullptr (world Sim.fresh))
    as (m' & evs & H & -> & _ & _ & _ & Wd & Ht & Pf);
    [reflexivity | discriminate |].
  exists m'. repeat split; assumption.
Defined.

Lemma AcquireSingleImage_success_caches_witness :
  exists m' evs,
    AcquireSingleImage (Sim.sdk Sim.gige) 3 DEV 0%nat Sim.fresh
    = Some ((VmbErrorSuccess, Sim.the_frame), m', evs) /\
    exists fW w, m_nWidth (this m') = w /\
                 In (EvGetValue fW VmbErrorSuccess w) evs.
Proof.
  destruct (AcquireSingleImage (Sim.sdk Sim.gige) 3 DEV 0%nat Sim.fresh)
    as [[[[st frame] m'] evs]|] eqn:Q; [|vm_compute in Q; discriminate Q].
  assert (st = VmbErrorSuccess /\ frame = Sim.the_frame) as [-> ->]
      by (vm_compute in Q; inversion Q; split; reflexivity).
  exists m', evs. split; [reflexivity|].
  destruct (AcquireSingleImage_success_caches
              (Sim.sdk Sim.gige) 3 DEV 0%nat Sim.fresh Sim.the_frame m' evs Q)
    as (calls & cam & fW & w & fH & sH & h & fP & sets & sp & p & c
        & E & _ & Wd & _).
  exists fW, w. split; [exact Wd|].
  rewrite E. apply in_or_app. right. right. left. reflexivity.
Defined.

Lemma AcquireSingleImage_falls_back_to_Mono8_witness :
  exists r m' evs,
    AcquireSingleImage
      (Sim.sdk (Sim.failing Sim.AtRgb8 Sim.VmbErrorInvalidValue Sim.gige))
      3 DEV 0%nat Sim.fresh = Some (r, m', evs) /\
    In (EvGetFeatureByName Sim.the_camera "PixelFormat" VmbErrorSuccess
                           Sim.format_feature) evs /\
    In (EvSetValue Sim.format_feature VmbPixelFormatRgb8
                   Sim.VmbErrorInvalidValue) evs /\
    Sim.VmbErrorInvalidValue <> VmbErrorSuccess /\
    exists calls s1 s2 rest,
      evs = calls ++ EvSetValue Sim.format_feature VmbPixelFormatRgb8 s1
                  :: EvSetValue Sim.format_feature VmbPixelFormatMono8 s2
                  :: rest.
Proof.
  destruct (AcquireSingleImage
              (Sim.sdk (Sim.failing Sim.AtRgb8 Sim.VmbErrorInvalidValue Sim.gige))
              3 DEV 0%nat Sim.fresh)
    as [[[r m'] evs]|] eqn:Q; [|vm_compute in Q; discriminate Q].
  assert (G : In (EvGetFeatureByName Sim.the_camera "PixelFormat"
                                     VmbErrorSuccess Sim.format_feature) evs)
    by (vm_compute in Q; inversion Q; cbn; auto 20).
  assert (S : In (EvSetValue Sim.format_feature VmbPixelFormatRgb8
                             Sim.VmbErrorInvalidValue) evs)
    by (vm_compute in Q; inversion Q; cbn; auto 20).
  assert (R : Sim.VmbErrorInvalidValue <> VmbErrorSuccess) by discriminate.
  exists r, m', evs. split; [reflexivity|].
  split; [exact G|]. split; [exact S|]. split; [exact R|].
  destruct (AcquireSingleImage_falls_back_to_Mono8
              (Sim.sdk (Sim.failing Sim.AtRgb8 Sim.VmbErrorInvalidValue Sim.gige))
              3 DEV 0%nat Sim.fresh) as [F _].
  destruct (F r m' evs Sim.the_camera Sim.format_feature
              Sim.VmbErrorInvalidValue Q G S R)
    as (calls & s1 & s2 & rest & E & _ & _).
  exists calls, s1, s2, rest. exact E.
Defined.

Lemma GetCameraList_swallows_failure_witness :
  value_of (GetCameraList (Sim.sdk (Sim.unplugged Sim.gige)) Sim.fresh)
  = Some [] /\
  value_of (GetCameraList
              (Sim.sdk (Sim.failing Sim.AtGetCameras Sim.VmbErrorTimeout Sim.gige))
              Sim.fresh)
  = value_of (GetCameraList (Sim.sdk (Sim.unplugged Sim.gige)) Sim.fresh).
Proof.
  destruct (GetCameraList_swallows_failure
              (Sim.sdk (Sim.unplugged Sim.gige)) Sim.fresh
              VmbErrorSuccess [] (world Sim.fresh)) as (_ & S & _ & I);
    [reflexivity|].
  split; [apply S; reflexivity|].
  symmetry.
  apply (I Sim.World
           (Sim.sdk (Sim.failing Sim.AtGetCameras Sim.VmbErrorTimeout Sim.gige))
           Sim.fresh Sim.VmbErrorTimeout [] (world Sim.fresh));
    [reflexivity | reflexivity | reflexivity | discriminate].
Defined.

Lemma AcquireSingleImage_polling_unbounded_witness :
  (forall b w, exists w',
        feat_IsCommandDone (Sim.sdk (Sim.completing None Sim.gige))
                           Sim.packet_size_feature b w
        = (VmbErrorSuccess, false, w')) /\
  AcquireSingleImage (Sim.sdk (Sim.completing None Sim.gige))
                     1000 DEV 0%nat Sim.fresh = None.
Proof.
  assert (N : forall b w, exists w',
               feat_IsCommandDone (Sim.sdk (Sim.completing None Sim.gige))
                                  Sim.packet_size_feature b w
               = (VmbErrorSuccess, false, w'))
    by (intros b w; eexists; reflexivity).
  split; [exact N|].
  destruct AcquireSingleImage_polling_unbounded as [G _].
  destruct (G Vimba Sim.World (Sim.sdk (Sim.completing None Sim.gige))
              DEV 0%nat Sim.fresh Sim.the_camera (world Sim.fresh)
              Sim.packet_size_feature (world Sim.fresh) (world Sim.fresh))
    as (_ & _ & H); [reflexivity..|].
  exact (H N 1000%nat).
Defined.

Lemma accessors_before_acquisition_witness :
  - 2 ^ 31 <= -7 < 2 ^ 31 /\
  exists storage,
    GetWidth (ApiController_ctor storage) = -7 /\
    GetHeight (ApiController_ctor storage) = -7.
Proof.
  split; [lia|].
  destruct accessors_before_acquisition as (_ & _ & H & _).
  apply (H (-7)). lia.
Defined.

Lemma StartUp_registers_once_witness :
  StartUp (Sim.sdk Sim.gige) Sim.fresh
  = Some (VmbErrorSuccess,
          {| this := set_m_pCameraObserver 1%nat (this Sim.fresh);
             world := {| Sim.polls := 0; Sim.format := 0; Sim.observers := 1 |} |},
          [EvStartup VmbErrorSuccess; EvNewCameraObserver 1%nat;
           EvRegisterCameraListObserver 1%nat VmbErrorSuccess]) /\
  StartUp (Sim.sdk (Sim.failing Sim.AtStartup Sim.VmbErrorTimeout Sim.gige))
          Sim.fresh
  = Some (Sim.VmbErrorTimeout, Sim.fresh, [EvStartup Sim.VmbErrorTimeout]).
Proof.
  split.
  - destruct (StartUp_registers_once (Sim.sdk Sim.gige) Sim.fresh
                VmbErrorSuccess (world Sim.fresh)) as (_ & S & _);
      [reflexivity|].
    apply (S eq_refl 1%nat
             {| Sim.polls := 0; Sim.format := 0; Sim.observers := 1 |}
             VmbErrorSuccess
             {| Sim.polls := 0; Sim.format := 0; Sim.observers := 1 |});
      reflexivity.
  - destruct (StartUp_registers_once
                (Sim.sdk (Sim.failing Sim.AtStartup Sim.VmbErrorTimeout Sim.gige))
                Sim.fresh Sim.VmbErrorTimeout (world Sim.fresh)) as (F & _ & _);
      [reflexivity|].
    apply F. discriminate.
Defined.

Lemma packet_size_status_swallowed_witness :
  AdjustTrace (Sim.sdk (Sim.failing Sim.AtPacketSize Sim.VmbErrorNotFound Sim.gige))
              Sim.the_camera (world Sim.fresh)
              [EvGetFeatureByName Sim.the_camera "GVSPAdjustPacketSize"
                                  Sim.VmbErrorNotFound nullptr]
              (world Sim.fresh) /\
  exists r m' t_conf c,
    AcquireSingleImage
      (Sim.sdk (Sim.failing Sim.AtPacketSize Sim.VmbErrorNotFound Sim.gige))
      0 DEV 0%nat Sim.fresh
    = Some (r, m',
            EvOpenCameraByID DEV VmbAccessModeFull VmbErrorSuccess Sim.the_camera
              :: [EvGetFeatureByName Sim.the_camera "GVSPAdjustPacketSize"
                                     Sim.VmbErrorNotFound nullptr]
              ++ t_conf ++ [EvClose Sim.the_camera c]) /\
    exists s fW rest,
      t_conf = EvGetFeatureByName Sim.the_camera "Width" s fW :: rest.
Proof.
  assert (A : AdjustTrace
                (Sim.sdk (Sim.failing Sim.AtPacketSize Sim.VmbErrorNotFound
                                      Sim.gige))
                Sim.the_camera (world Sim.fresh)
                [EvGetFeatureByName Sim.the_camera "GVSPAdjustPacketSize"
                                    Sim.VmbErrorNotFound nullptr]
                (world Sim.fresh)).
  { apply (Adjust_no_feature (K := Vimba)); [reflexivity | discriminate]. }
  split; [exact A|].
  destruct (packet_size_status_swallowed
              (Sim.sdk (Sim.failing Sim.AtPacketSize Sim.VmbErrorNotFound
                                    Sim.gige))
              DEV 0%nat Sim.fresh Sim.the_camera (world Sim.fresh)
              [EvGetFeatureByName Sim.the_camera "GVSPAdjustPacketSize"
                                  Sim.VmbErrorNotFound nullptr]
              (world Sim.fresh) 0%nat)
    as (r & m2 & t_conf & m' & c & C & H & S & _).
  - reflexivity.
  - exact A.
  - apply Exists_cons_hd. exists Sim.VmbErrorNotFound.
    split; [reflexivity | discriminate].
  - cbn. lia.
  - exists r, m', t_conf, c. split; [exact H | exact S].
Defined.

(** ** Further properties of [AcquireSingleImage] *)

Lemma has_head f l : has f (f :: l) = true.
Proof. unfold has. cbn. now rewrite Nat.eqb_refl. Qed.

Ltac window :=
  repeat (progress (cbn [app protocol protocol_step];
                    rewrite ?Nat.eqb_refl, ?succeeded_ok, ?has_head;
                    repeat match goal with
                           | H : succeeded _ = false |- _ => rewrite H
                           end)).

Section Window.

Context {K : VmbConstants} {W : Type}.
Variable sdk : VimbaSDK W.

Local Notation "'ok'" := VmbErrorSuccess.

Lemma protocol_app s l1 l2 :
  protocol s (l1 ++ l2)
  = match protocol s l1 with
    | Some s' => protocol s' l2
    | None => None
    end.
Proof.
  revert s. induction l1 as [|e l1 IH]; intros s; cbn [app protocol].
  - reflexivity.
  - destruct (protocol_step s e); [apply IH | reflexivity].
Qed.

Lemma Polls_protocol f b w evs w' :
  Polls sdk f b w evs w' ->
  forall cam known started,
    has f started = true ->
    protocol (Opened cam known started) evs = Some (Opened cam known started).
Proof.
  induction 1 as [b w res d w' E R | b w w' E | b w w1 evs w' E P IH];
    intros cam known started H; cbn [protocol protocol_step]; rewrite H.
  - reflexivity.
  - reflexivity.
  - now apply IH.
Qed.

Lemma AdjustTrace_protocol cam w evs w' :
  AdjustTrace sdk cam w evs w' ->
  exists known started,
    protocol (Opened cam [] []) evs = Some (Opened cam known started).
Proof.
  destruct 1 as [w r f w1 E R | w f w1 r w2 E1 E2 R | w f w1 w2 evs w3 E1 E2 P];
    try apply succeeded_false in R; window.
  - now exists [], [].
  - now exists [f], [].
  - exists [f], [f]. eapply Polls_protocol; [eassumption | apply has_head].
Qed.

Lemma ConfTrace_protocol cam c rpFrame evs r c' :
  ConfTrace cam c rpFrame evs r c' ->
  forall known started,
  exists known',
    protocol (Opened cam known started) evs = Some (Opened cam known' started).
Proof.
  destruct 1; intros known started; unfold format_prefix;
    repeat match goal with
           | H : _ <> ok |- _ => apply succeeded_false in H
           end;
    window; eexists; reflexivity.
Qed.

End Window.

Section Further.

Context {K : VmbConstants} {W : Type}.
Variable sdk : VimbaSDK W.

Local Notation "'ok'" := VmbErrorSuccess.

Lemma AcquireSingleImage_window fuel id rpFrame (m : Machine W) r m' evs :
  AcquireSingleImage sdk fuel id rpFrame m = Some (r, m', evs) ->
  protocol Closed evs = Some Closed.
Proof.
  intros H. apply AcquireSingleImage_cases in H.
  destruct H
    as [(res & cam & w1 & _ & R & _ & _ & ->) |
        (cam & w1 & t_adj & w2 & t_conf & c & E & A & C & ->)].
  - apply succeeded_false in R. cbn [protocol protocol_step]. now rewrite R.
  - cbn [protocol protocol_step]. rewrite succeeded_ok.
    rewrite protocol_app.
    destruct (AdjustTrace_protocol sdk _ _ _ _ A) as (known & started & ->).
    rewrite protocol_app.
    destruct (ConfTrace_protocol _ _ _ _ _ _ C known started) as (known' & ->).
    cbn [protocol protocol_step]. now rewrite Nat.eqb_refl.
Qed.

(** X1.  The calls of a returning [AcquireSingleImage] keep to the window of
    the camera: nothing is called on a camera before it was opened with
    success or after it was closed, every feature that is run, polled, read
    or written was returned by a successful look-up on that camera, every
    polled command was started, and the camera is closed at the end.  So do
    the calls of two [AcquireSingleImage] in a row. *)
Theorem AcquireSingleImage_keeps_to_the_window
        fuel id rpFrame (m : Machine W) r m' evs :
  AcquireSingleImage sdk fuel id rpFrame m = Some (r, m', evs) ->
  protocol Closed evs = Some Closed /\
  forall fuel2 id2 rpFrame2 r2 m2 evs2,
    AcquireSingleImage sdk fuel2 id2 rpFrame2 m' = Some (r2, m2, evs2) ->
    (AcquireSingleImage sdk fuel id rpFrame ;;
     AcquireSingleImage sdk fuel2 id2 rpFrame2) m
    = Some (r2, m2, evs ++ evs2) /\
    protocol Closed (evs ++ evs2) = Some Closed.
Proof.
  intros H. split; [eapply AcquireSingleImage_window; eassumption|].
  intros fuel2 id2 rpFrame2 r2 m2 evs2 H2. split.
  - cbn [bind Monad_M]. rewrite H, H2. reflexivity.
  - rewrite protocol_app.
    rewrite (AcquireSingleImage_window _ _ _ _ _ _ _ H).
    eapply AcquireSingleImage_window; eassumption.
Qed.

(** The calls outside the configuration and capture block do not count for
    a kind of call that is neither the open, nor a packet-size call, nor the
    close. *)
Lemma filter_packet_size (p : Event -> bool) (l : list Event) :
  (forall e, is_packet_size_call e = true -> p e = false) ->
  Forall (fun e => is_packet_size_call e = true) l ->
  filter p l = [].
Proof.
  intros P. induction 1 as [|e l E _ IH]; cbn; [reflexivity|].
  now rewrite (P e E).
Qed.

Lemma filter_AcquireSingleImage (p : Event -> bool) id cam w1 t_adj w2 t_conf c :
  (forall e, is_packet_size_call e = true -> p e = false) ->
  p (EvOpenCameraByID id VmbAccessModeFull ok cam) = false ->
  p (EvClose cam c) = false ->
  AdjustTrace sdk cam w1 t_adj w2 ->
  filter p (EvOpenCameraByID id VmbAccessModeFull ok cam
              :: t_adj ++ t_conf ++ [EvClose cam c])
  = filter p t_conf.
Proof.
  intros P O C A. cbn [filter]. rewrite O, !filter_app.
  rewrite (filter_packet_size p t_adj P)
    by (eapply AdjustTrace_packet_size; eassumption).
  cbn [filter app]. rewrite C. apply app_nil_r.
Qed.

Lemma In_AcquireSingleImage e id cam w1 t_adj w2 t_conf c :
  is_packet_size_call e = false ->
  is_Open e = false ->
  is_Close e = false ->
  AdjustTrace sdk cam w1 t_adj w2 ->
  In e (EvOpenCameraByID id VmbAccessModeFull ok cam
          :: t_adj ++ t_conf ++ [EvClose cam c]) ->
  In e t_conf.
Proof.
  intros P O C A [H|H]; [subst e; discriminate|].
  apply in_app_or in H. destruct H as [H|H].
  - apply AdjustTrace_packet_size in A. rewrite Forall_forall in A.
    apply A in H. congruence.
  - apply in_app_or in H. destruct H as [H|[H|[]]]; [assumption|].
    subst e. discriminate.
Qed.

Lemma ConfTrace_capture cam c rpFrame evs r c' :
  ConfTrace cam c rpFrame evs r c' ->
  forall cam' t s frame',
    In (EvAcquireSingleImage cam' t s frame') evs ->
    cam' = cam /\ t = 2000 /\ r = (s, frame') /\
    exists calls, evs = calls ++ [EvAcquireSingleImage cam' t s frame'].
Proof.
  destruct 1; intros cam' t s frame' I; unfold format_prefix in *;
    cbn [app] in *; try (exfalso; in_inv I; fail).
  - in_inv I. repeat (split; [reflexivity|]).
    eexists [_; _; _; _; _; _; _]. reflexivity.
  - in_inv I. repeat (split; [reflexivity|]).
    eexists [_; _; _; _; _; _; _; _]. reflexivity.
Qed.

Lemma ConfTrace_success cam c rpFrame evs r c' :
  ConfTrace cam c rpFrame evs r c' ->
  fst r = ok ->
  exists frame, In (EvAcquireSingleImage cam 2000 ok frame) evs.
Proof.
  destruct 1; cbn [fst]; intros S; try congruence; subst;
    exists frame; unfold format_prefix; cbn; auto 12.
Qed.

(** X2.  Whenever the capture is called, it is called with a timeout of
    2000, it is followed by the close and by nothing else, and its status
    and frame are what [AcquireSingleImage] returns, whatever the close
    answers; and a call that returns success has called the capture. *)
Theorem capture_decides_result fuel id rpFrame (m : Machine W) r m' evs :
  AcquireSingleImage sdk fuel id rpFrame m = Some (r, m', evs) ->
  (forall cam t s frame,
      In (EvAcquireSingleImage cam t s frame) evs ->
      t = 2000 /\ r = (s, frame) /\
      exists calls c,
        evs = calls ++ [EvAcquireSingleImage cam t s frame; EvClose cam c]) /\
  (fst r = ok ->
   exists cam frame, In (EvAcquireSingleImage cam 2000 ok frame) evs).
Proof.
  intros H. apply AcquireSingleImage_cases in H.
  destruct H
    as [(res & cam0 & w1 & _ & R & -> & _ & ->) |
        (cam0 & w1 & t_adj & w2 & t_conf & c & E & A & C & ->)].
  - split.
    + intros cam t s frame [I|[]]. discriminate.
    + intros S. cbn in S. congruence.
  - split.
    + intros cam t s frame I.
      apply (In_AcquireSingleImage (EvAcquireSingleImage cam t s frame)
               _ _ _ _ _ _ _ eq_refl eq_refl eq_refl A) in I.
      destruct (ConfTrace_capture _ _ _ _ _ _ C _ _ _ _ I)
        as (-> & -> & -> & calls & ->).
      repeat (split; [reflexivity|]).
      exists (EvOpenCameraByID id VmbAccessModeFull ok cam0 :: t_adj ++ calls), c.
      cbn [app]. rewrite <- !app_assoc. reflexivity.
    + intros S. destruct (ConfTrace_success _ _ _ _ _ _ C S) as [frame I].
      exists cam0, frame. right. apply in_or_app. right.
      apply in_or_app. now left.
Qed.


(** X4.  The only values [AcquireSingleImage] writes to the device are the
    two pixel formats: its [SetValue] calls are none, or one successful set
    of Rgb8, or a rejected set of Rgb8 followed by one set of Mono8, on the
    same feature. *)
Theorem only_Rgb8_or_Mono8_is_set fuel id rpFrame (m : Machine W) r m' evs :
  AcquireSingleImage sdk fuel id rpFrame m = Some (r, m', evs) ->
  filter is_SetValue evs = [] \/
  (exists f, filter is_SetValue evs = [EvSetValue f VmbPixelFormatRgb8 ok]) \/
  (exists f s1 s2,
      s1 <> ok /\
      filter is_SetValue evs = [EvSetValue f VmbPixelFormatRgb8 s1;
                                EvSetValue f VmbPixelFormatMono8 s2]).
Proof.
  intros H. apply AcquireSingleImage_cases in H.
  destruct H
    as [(res & cam0 & w1 & _ & R & -> & _ & ->) |
        (cam0 & w1 & t_adj & w2 & t_conf & c & E & A & C & ->)].
  - left. reflexivity.
  - rewrite (filter_AcquireSingleImage is_SetValue id cam0 w1 t_adj w2 t_conf c);
      [| intros [] X; try reflexivity; discriminate | reflexivity | reflexivity
       | assumption].
    inversion C; subst; unfold format_prefix; cbn [app filter is_SetValue].
    + now left.
    + now left.
    + now left.
    + now left.
    + right. right. now exists fP, s1, s2.
    + right. left. now exists fP.
    + right. right. now exists fP, s1, ok.
Qed.

Lemma GetValue_values_app l1 l2 :
  GetValue_values (l1 ++ l2) = GetValue_values l1 ++ GetValue_values l2.
Proof. apply flat_map_app. Qed.

Lemma GetValue_values_packet_size (l : list Event) :
  Forall (fun e => is_packet_size_call e = true) l -> GetValue_values l = [].
Proof.
  induction 1 as [|e l E _ IH]; [reflexivity|].
  unfold GetValue_values in *. cbn [flat_map]. rewrite IH.
  destruct e; try reflexivity; discriminate.
Qed.

(** X5.  Whatever a call returns, the cached members hold what the reads
    that were made left in them: [m_nWidth] belongs to the first [GetValue]
    of the call, [m_nHeight] to the second and [m_nPixelFormat] to the
    third, and a member whose read was not reached is as it was before the
    call.  Nothing is restored when a later step fails.
    [m_pCameraObserver] is never changed. *)
Theorem cached_members_follow_the_reads fuel id rpFrame (m : Machine W)
        r m' evs :
  AcquireSingleImage sdk fuel id rpFrame m = Some (r, m', evs) ->
  m_nWidth (this m') = nth 0 (GetValue_values evs) (m_nWidth (this m)) /\
  m_nHeight (this m') = nth 1 (GetValue_values evs) (m_nHeight (this m)) /\
  m_nPixelFormat (this m')
  = nth 2 (GetValue_values evs) (m_nPixelFormat (this m)) /\
  (length (GetValue_values evs) <= 3)%nat /\
  m_pCameraObserver (this m') = m_pCameraObserver (this m).
Proof.
  intros H. apply AcquireSingleImage_cases in H.
  destruct H
    as [(res & cam0 & w1 & _ & R & -> & -> & ->) |
        (cam0 & w1 & t_adj & w2 & t_conf & c & E & A & C & ->)].
  - cbn. repeat split; lia.
  - change (EvOpenCameraByID id VmbAccessModeFull ok cam0
              :: t_adj ++ t_conf ++ [EvClose cam0 c])
      with ([EvOpenCameraByID id VmbAccessModeFull ok cam0]
              ++ t_adj ++ t_conf ++ [EvClose cam0 c]).
    rewrite !GetValue_values_app.
    rewrite (GetValue_values_packet_size t_adj)
      by (eapply AdjustTrace_packet_size; eassumption).
    cbn [GetValue_values flat_map app]. rewrite app_nil_r.
    inversion C; subst; unfold format_prefix;
      cbn [GetValue_values flat_map app nth length];
      repeat split; try reflexivity; lia.
Qed.

Lemma Polls_only_polls f b w evs w' :
  Polls sdk f b w evs w' ->
  Forall (fun e => is_IsCommandDone e = true) evs.
Proof. induction 1; repeat constructor; assumption. Qed.

Lemma AdjustTrace_counts cam w evs w' :
  AdjustTrace sdk cam w evs w' ->
  (count is_RunCommand evs <= 1)%nat /\
  (count (fun e => negb (is_IsCommandDone e)) evs <= 2)%nat.
Proof.
  destruct 1 as [? ? ? ? _ _ | ? ? ? ? ? _ _ _ | ? ? ? ? evs ? _ _ P].
  - cbn. lia.
  - cbn. lia.
  - apply Polls_only_polls in P. unfold count. cbn [filter is_RunCommand
      is_IsCommandDone negb length].
    assert (R : filter is_RunCommand evs = []).
    { clear - P. induction P as [|e l E _ IH]; cbn; [reflexivity|].
      destruct e; try discriminate. exact IH. }
    assert (N : filter (fun e => negb (is_IsCommandDone e)) evs = []).
    { clear - P. induction P as [|e l E _ IH]; cbn; [reflexivity|].
      rewrite E. exact IH. }
    rewrite R, N. cbn. lia.
Qed.

(** X6.  [AcquireSingleImage] repeats no step but the poll: it opens once,
    runs the packet-size command at most once, captures at most once and
    closes at most once, and apart from the [IsCommandDone] polls it makes
    at most 13 SDK calls. *)
Theorem only_the_poll_is_repeated fuel id rpFrame (m : Machine W) r m' evs :
  AcquireSingleImage sdk fuel id rpFrame m = Some (r, m', evs) ->
  count is_Open evs = 1%nat /\
  (count is_RunCommand evs <= 1)%nat /\
  (count is_capture evs <= 1)%nat /\
  (count is_Close evs <= 1)%nat /\
  (count (fun e => negb (is_IsCommandDone e)) evs <= 13)%nat.
Proof.
  intros H. apply AcquireSingleImage_cases in H.
  destruct H
    as [(res & cam0 & w1 & _ & R & -> & _ & ->) |
        (cam0 & w1 & t_adj & w2 & t_conf & c & E & A & C & ->)].
  - cbn. repeat split; lia.
  - change (EvOpenCameraByID id VmbAccessModeFull ok cam0
              :: t_adj ++ t_conf ++ [EvClose cam0 c])
      with ([EvOpenCameraByID id VmbAccessModeFull ok cam0]
              ++ t_adj ++ t_conf ++ [EvClose cam0 c]).
    rewrite !count_app.
    destruct (AdjustTrace_counts _ _ _ _ A) as [AR AN].
    pose proof (AdjustTrace_packet_size sdk _ _ _ _ A) as PS.
    assert (AO : count is_Open t_adj = 0%nat).
    { unfold count. rewrite (filter_packet_size is_Open t_adj); [reflexivity| |exact PS].
      intros [] X; try reflexivity; discriminate. }
    assert (AC : count is_capture t_adj = 0%nat).
    { unfold count. rewrite (filter_packet_size is_capture t_adj); [reflexivity| |exact PS].
      intros [] X; try reflexivity; discriminate. }
    assert (AL : count is_Close t_adj = 0%nat).
    { unfold count. rewrite (filter_packet_size is_Close t_adj); [reflexivity| |exact PS].
      intros [] X; try reflexivity; discriminate. }
    rewrite AO, AC, AL.
    inversion C; subst; unfold format_prefix; cbn; repeat split; lia.
Qed.

End Further.

(** X7.  [GetWidth] and [GetHeight] return an [int]: a value between
    [- 2 ^ 31] and [2 ^ 31 - 1] that differs from the cached 64-bit member by
    a multiple of [2 ^ 32], so the member itself when it fits an [int] and
    another number when it does not. *)
Theorem accessors_fit_an_int (c : ApiController) :
  (- 2 ^ 31 <= GetWidth c < 2 ^ 31 /\
   (GetWidth c - m_nWidth c) mod 2 ^ 32 = 0 /\
   (- 2 ^ 31 <= m_nWidth c < 2 ^ 31 <-> GetWidth c = m_nWidth c)) /\
  (- 2 ^ 31 <= GetHeight c < 2 ^ 31 /\
   (GetHeight c - m_nHeight c) mod 2 ^ 32 = 0 /\
   (- 2 ^ 31 <= m_nHeight c < 2 ^ 31 <-> GetHeight c = m_nHeight c)).
Proof.
  assert (G : forall v,
             - 2 ^ 31 <= static_cast_int v < 2 ^ 31 /\
             (static_cast_int v - v) mod 2 ^ 32 = 0 /\
             (- 2 ^ 31 <= v < 2 ^ 31 <-> static_cast_int v = v)).
  { intros v. unfold static_cast_int.
    pose proof (Z.mod_pos_bound (v + 2 ^ 31) (2 ^ 32) ltac:(lia)) as B.
    split; [lia|]. split.
    - pose proof (Z.div_mod (v + 2 ^ 31) (2 ^ 32) ltac:(lia)) as D.
      replace ((v + 2 ^ 31) mod 2 ^ 32 - 2 ^ 31 - v)
        with (- ((v + 2 ^ 31) / 2 ^ 32) * 2 ^ 32) by lia.
      apply Z.mod_mul. lia.
    - split.
      + intros R. rewrite Z.mod_small by lia. lia.
      + intros Q. lia. }
  split; apply G.
Qed.

(** ** The further properties at concrete devices *)

Lemma AcquireSingleImage_keeps_to_the_window_witness :
  exists r m' evs,
    AcquireSingleImage (Sim.sdk Sim.gige) 3 DEV 0%nat Sim.fresh
    = Some (r, m', evs) /\
    protocol Closed evs = Some Closed.
Proof.
  destruct (AcquireSingleImage (Sim.sdk Sim.gige) 3 DEV 0%nat Sim.fresh)
    as [[[r m'] evs]|] eqn:Q; [|vm_compute in Q; discriminate Q].
  exists r, m', evs. split; [reflexivity|].
  exact (proj1 (AcquireSingleImage_keeps_to_the_window
                  (Sim.sdk Sim.gige) 3 DEV 0%nat Sim.fresh r m' evs Q)).
Defined.

Lemma capture_decides_result_witness :
  exists r m' evs,
    AcquireSingleImage
      (Sim.sdk (Sim.failing Sim.AtCapture Sim.VmbErrorTimeout Sim.gige))
      3 DEV 0%nat Sim.fresh
    = Some (r, m', evs) /\
    In (EvAcquireSingleImage Sim.the_camera 2000 Sim.VmbErrorTimeout 0%nat) evs /\
    r = (Sim.VmbErrorTimeout, 0%nat).
Proof.
  destruct (AcquireSingleImage
              (Sim.sdk (Sim.failing Sim.AtCapture Sim.VmbErrorTimeout Sim.gige))
              3 DEV 0%nat Sim.fresh)
    as [[[r m'] evs]|] eqn:Q; [|vm_compute in Q; discriminate Q].
  assert (I : In (EvAcquireSingleImage Sim.the_camera 2000
                                       Sim.VmbErrorTimeout 0%nat) evs)
    by (vm_compute in Q; inversion Q; cbn; auto 20).
  exists r, m', evs. split; [reflexivity|]. split; [exact I|].
  destruct (capture_decides_result
              (Sim.sdk (Sim.failing Sim.AtCapture Sim.VmbErrorTimeout Sim.gige))
              3 DEV 0%nat Sim.fresh r m' evs Q) as [C _].
  exact (proj1 (proj2 (C _ _ _ _ I))).
Defined.


Lemma only_Rgb8_or_Mono8_is_set_witness :
  exists r m' evs,
    AcquireSingleImage
      (Sim.sdk (Sim.failing Sim.AtRgb8 Sim.VmbErrorInvalidValue Sim.gige))
      3 DEV 0%nat Sim.fresh
    = Some (r, m', evs) /\
    (filter is_SetValue evs = [] \/
     (exists f, filter is_SetValue evs
                = [EvSetValue f VmbPixelFormatRgb8 VmbErrorSuccess]) \/
     (exists f s1 s2,
         s1 <> VmbErrorSuccess /\
         filter is_SetValue evs = [EvSetValue f VmbPixelFormatRgb8 s1;
                                   EvSetValue f VmbPixelFormatMono8 s2])).
Proof.
  destruct (AcquireSingleImage
              (Sim.sdk (Sim.failing Sim.AtRgb8 Sim.VmbErrorInvalidValue Sim.gige))
              3 DEV 0%nat Sim.fresh)
    as [[[r m'] evs]|] eqn:Q; [|vm_compute in Q; discriminate Q].
  exists r, m', evs. split; [reflexivity|].
  exact (only_Rgb8_or_Mono8_is_set
           (Sim.sdk (Sim.failing Sim.AtRgb8 Sim.VmbErrorInvalidValue Sim.gige))
           3 DEV 0%nat Sim.fresh r m' evs Q).
Defined.

Lemma cached_members_follow_the_reads_witness :
  exists r m' evs,
    AcquireSingleImage
      (Sim.sdk (Sim.failing Sim.AtCapture Sim.VmbErrorTimeout Sim.gige))
      3 DEV 0%nat Sim.fresh
    = Some (r, m', evs) /\
    GetValue_values evs = [640; 480; VmbPixelFormatRgb8] /\
    m_nWidth (this m') = nth 0 (GetValue_values evs) 0 /\
    m_nHeight (this m') = nth 1 (GetValue_values evs) 0 /\
    m_nPixelFormat (this m') = nth 2 (GetValue_values evs) 0.
Proof.
  destruct (AcquireSingleImage
              (Sim.sdk (Sim.failing Sim.AtCapture Sim.VmbErrorTimeout Sim.gige))
              3 DEV 0%nat Sim.fresh)
    as [[[r m'] evs]|] eqn:Q; [|vm_compute in Q; discriminate Q].
  assert (V : GetValue_values evs = [640; 480; VmbPixelFormatRgb8])
    by (vm_compute in Q; inversion Q; reflexivity).
  exists r, m', evs. split; [reflexivity|]. split; [exact V|].
  destruct (cached_members_follow_the_reads
              (Sim.sdk (Sim.failing Sim.AtCapture Sim.VmbErrorTimeout Sim.gige))
              3 DEV 0%nat Sim.fresh r m' evs Q) as (Wd & Ht & Pf & _).
  repeat split; assumption.
Defined.

Lemma only_the_poll_is_repeated_witness :
  exists r m' evs,
    AcquireSingleImage (Sim.sdk (Sim.completing (Some 40%nat) Sim.gige))
                       41 DEV 0%nat Sim.fresh
    = Some (r, m', evs) /\
    count is_IsCommandDone evs = 41%nat /\
    (count (fun e => negb (is_IsCommandDone e)) evs <= 13)%nat.
Proof.
  destruct (AcquireSingleImage (Sim.sdk (Sim.completing (Some 40%nat) Sim.gige))
                               41 DEV 0%nat Sim.fresh)
    as [[[r m'] evs]|] eqn:Q; [|vm_compute in Q; discriminate Q].
  assert (N : count is_IsCommandDone evs = 41%nat)
    by (vm_compute in Q; inversion Q; reflexivity).
  exists r, m', evs. split; [reflexivity|]. split; [exact N|].
  destruct (only_the_poll_is_repeated
              (Sim.sdk (Sim.completing (Some 40%nat) Sim.gige))
              41 DEV 0%nat Sim.fresh r m' evs Q) as (_ & _ & _ & _ & B).
  exact B.
Defined.

Lemma accessors_fit_an_int_witness :
  - 2 ^ 31 <= 640 < 2 ^ 31 /\
  GetWidth {| m_pCamera := nullptr; m_pCameraObserver := nullptr;
              m_nPixelFormat := 0; m_nWidth := 640; m_nHeight := 480 |}
  = 640.
Proof.
  split; [lia|].
  destruct (accessors_fit_an_int
              {| m_pCamera := nullptr; m_pCameraObserver := nullptr;
                 m_nPixelFormat := 0; m_nWidth := 640; m_nHeight := 480 |})
    as [(_ & _ & I) _].
  apply I. cbn [m_nWidth]. lia.
Defined.
